(** * terraform_output: the Ansible module that lists Terraform outputs

    A shallow embedding of [plugins/modules/terraform_output.py] and the
    properties of its observable contract.

    The module builds a command line, runs one subprocess through the
    Ansible module object, inspects the exit code and either decodes the
    standard output as JSON, records a warning, or fails.  Everything the
    module consumes from outside (the file system, the executable lookup,
    the subprocess and the JSON decoder) is an oracle of the embedding;
    everything the module does to the outside (the calls it makes and the
    way it terminates) is recorded in an event log. *)

From Stdlib Require Import String Ascii List ZArith Bool Lia.
From Stdlib Require Import DecimalString.
From Stdlib Require Floats.SpecFloat.
From Stdlib Require DecimalZ DecimalPos.
Import ListNotations.

Local Open Scope string_scope.
Local Open Scope Z_scope.

(** ** Python values that cross the module boundary *)

#[local] Set Warnings "-register-all".

(** What [json.loads] produces and what [exit_json] / [fail_json] take as
    keyword values.  A Python [dict] keeps insertion order and has unique
    keys; it is an association list here. *)
Inductive json_value : Type :=
| JNull
| JBool (b : bool)
| JInt (z : Z)
| JFloat (f : SpecFloat.spec_float)
| JString (s : string)
| JList (items : list json_value)
| JDict (entries : list (string * json_value)).

(** [d.get(k)] on a dict read as an association list. *)
Fixpoint assoc_get (k : string) (entries : list (string * json_value))
  : option json_value :=
  match entries with
  | [] => None
  | (k', v) :: rest => if String.eqb k k' then Some v else assoc_get k rest
  end.

(** [v[k]] when [v] is a dict; [None] stands for KeyError / TypeError. *)
Definition json_field (k : string) (v : json_value) : option json_value :=
  match v with
  | JDict entries => assoc_get k entries
  | _ => None
  end.

(** The result of [json.loads]: a value, or the text of the
    [JSONDecodeError] it raises. *)
Inductive decoded : Type :=
| Decoded (v : json_value)
| DecodeError (e : string).

(** ** Strings *)

(** [needle in hay] for Python [str]. *)
Fixpoint contains (needle hay : string) : bool :=
  String.prefix needle hay
  || match hay with
     | EmptyString => false
     | String _ rest => contains needle rest
     end.

(** ["{0}".format(n)] for a Python [int]. *)
Definition str_of_int (n : Z) : string :=
  NilZero.string_of_int (Z.to_int n).

(** [sep.join(parts)]. *)
Definition join (sep : string) (parts : list string) : string :=
  String.concat sep parts.

(** Truthiness of a Python [str]: only the empty string is falsy. *)
Definition str_truthy (s : string) : bool :=
  match s with
  | EmptyString => false
  | String _ _ => true
  end.

(** ** The outside world *)

(** The three things the module asks of its host.
    - [fs] is the file system as [os.stat] sees it during the invocation;
    - [which] is [AnsibleModule.get_bin_path]'s search: the located path,
      or the text of the error the search raises;
    - [subprocess] is [AnsibleModule.run_command] for a process that was
      started with the given argument vector and working directory and has
      exited: exit code, captured standard output, captured standard
      error.

    The answers do not change while one invocation runs. *)
Record world : Type := {
  fs : string -> bool;
  which : string -> string + string;
  subprocess : list string -> option string -> Z * string * string
}.

(** [os.path.exists(p)]: the empty path names nothing, whatever the file
    system holds. *)
Definition on_disk (w : world) (p : string) : bool :=
  str_truthy p && fs w p.

(** ** Effects *)

(** What the module does to its host, in the order it does it. *)
Inductive event : Type :=
| EvExists (path : string)                        (* os.path.exists *)
| EvLookup (name : string)                        (* module.get_bin_path *)
| EvSpawn (argv : list string) (cwd : option string) (* module.run_command *)
| EvWarn (text : string).                         (* module.warn *)

(** The ways the process ends.  [exit_json] and [fail_json] both leave
    through [sys.exit]; an exception nobody catches leaves through the
    interpreter.  The keywords are the ones the module passes; what the
    framework adds to a report on its own is not part of them. *)
Inductive stop : Type :=
| ExitJson (kwargs : list (string * json_value))
| FailJson (kwargs : list (string * json_value))
| Uncaught (exc : string).

Inductive step (A : Type) : Type :=
| Ret (a : A)
| Stop (s : stop).
Arguments Ret {A} a.
Arguments Stop {A} s.

(** A computation reads the world, extends the log, and either hands a
    value to its continuation or ends the process. *)
Definition M (A : Type) : Type := world -> list event -> step A * list event.

Definition ret {A} (a : A) : M A := fun _ log => (Ret a, log).

Definition bind {A B} (m : M A) (k : A -> M B) : M B :=
  fun w log =>
    match m w log with
    | (Ret a, log') => k a w log'
    | (Stop s, log') => (Stop s, log')
    end.

Definition emit (e : event) : M unit := fun _ log => (Ret tt, (log ++ [e])%list).

Definition halt {A} (s : stop) : M A := fun _ log => (Stop s, log).

Definition ask {A} (f : world -> A) : M A := fun w log => (Ret (f w), log).

Declare Scope py_scope.
Delimit Scope py_scope with py.
Notation "x <- m ;; k" := (bind m (fun x => k))
  (at level 61, m at next level, right associativity) : py_scope.
Notation "m ;; k" := (bind m (fun _ => k))
  (at level 61, right associativity) : py_scope.
Notation "' pat <- m ;; k" := (bind m (fun x => let 'pat := x in k))
  (at level 61, pat pattern, m at next level, right associativity) : py_scope.
Local Open Scope py_scope.

(** *** The module object and the standard library, as the code calls them *)

Definition os_path_exists (p : string) : M bool :=
  emit (EvExists p) ;; ask (fun w => on_disk w p).

Definition fail_json {A} (kwargs : list (string * json_value)) : M A :=
  halt (FailJson kwargs).

Definition exit_json {A} (kwargs : list (string * json_value)) : M A :=
  halt (ExitJson kwargs).

Definition warn (text : string) : M unit := emit (EvWarn text).

Definition run_command (argv : list string) (cwd : option string)
  : M (Z * string * string) :=
  emit (EvSpawn argv cwd) ;; ask (fun w => subprocess w argv cwd).

(** [module.get_bin_path(arg, required=True)], the only way the module
    calls it: a failed search is turned into [fail_json] carrying the
    search's own error text. *)
Definition get_bin_path (arg : string) : M string :=
  emit (EvLookup arg) ;;
  found <- ask (fun w => which w arg) ;;
  match found with
  | inl path => ret path
  | inr err => fail_json [("msg", JString err)]
  end.

(** ** The module *)

(** [module.params] after argument parsing: three optional paths. *)
Record params : Type := {
  project_path : option string;
  binary_path : option string;
  state_file : option string
}.

(** The double-quote character, as a one-character string. *)
Definition dquote : string := String "034" "".

(** The line feed, as a one-character string. *)
Definition newline : string := String "010" "".

Definition missing_state_msg (state_file : string) : string :=
  "Could not find state_file " ++ dquote ++ state_file ++ dquote
  ++ ", check the path and try again.".

Definition no_outputs_msg (outputs_text outputs_err : string) : string :=
  "Could not get Terraform outputs. "
  ++ "This usually means none have been defined." ++ newline ++ "stdout: "
  ++ outputs_text ++ newline ++ "stderr: " ++ outputs_err.

Definition outputs_failure_msg (rc : Z) (outputs_text outputs_err : string)
  : string :=
  "Failure when getting Terraform outputs. "
  ++ "Exited " ++ str_of_int rc ++ "." ++ newline ++ "stdout: "
  ++ outputs_text ++ newline ++ "stderr: " ++ outputs_err.

(** Python's [a and b]: [b] is evaluated only when [a] is truthy. *)
Definition py_and (a : bool) (b : M bool) : M bool :=
  if a then b else ret false.

(** [None] is falsy, so with no state file both conjunctions stop at
    their first operand and the function falls through to [return []]. *)
Definition _state_args (state_file : option string) : M (list string) :=
  match state_file with
  | None => ret []
  | Some path =>
      found <- py_and (str_truthy path) (os_path_exists path) ;;
      if found then ret ["-state"; path]
      else
        absent <- py_and (str_truthy path)
                    (e <- os_path_exists path ;; ret (negb e)) ;;
        if absent
        then fail_json [("msg", JString (missing_state_msg path))]
        else ret []
  end.

Section TerraformOutput.

(** [json.loads], a pure function of the text it is given. *)
Variable json_loads : string -> decoded.

Definition loads (text : string) : M json_value :=
  match json_loads text with
  | Decoded v => ret v
  | DecodeError e => halt (Uncaught e)
  end.

Definition get_outputs (terraform_binary : string)
    (project_path state_file : option string) : M json_value :=
  state_args <- _state_args state_file ;;
  let outputs_command :=
    ([terraform_binary; "output"; "-no-color"; "-json"] ++ state_args)%list in
  '(rc, outputs_text, outputs_err) <- run_command outputs_command project_path ;;
  if rc =? 1 then
    warn (no_outputs_msg outputs_text outputs_err) ;;
    ret (JDict [])
  else if negb (rc =? 0) then
    fail_json [("msg", JString (outputs_failure_msg rc outputs_text outputs_err));
               ("command", JString (join " " outputs_command))]
  else
    loads outputs_text.

Definition main (p : params) : M unit :=
  terraform_binary <-
    match binary_path p with
    | Some bin_path => ret bin_path
    | None => get_bin_path "terraform"
    end ;;
  outputs <- get_outputs terraform_binary (project_path p) (state_file p) ;;
  exit_json [("outputs", outputs)].

(** One invocation, from an empty log. *)
Definition invoke (w : world) (p : params) : step unit * list event :=
  main p w [].

End TerraformOutput.

(** ** Reading an invocation's result *)

(** The subprocesses started, in order. *)
Fixpoint spawned (log : list event) : list (list string * option string) :=
  match log with
  | [] => []
  | EvSpawn argv cwd :: rest => (argv, cwd) :: spawned rest
  | _ :: rest => spawned rest
  end.

(** The warnings recorded, in order. *)
Fixpoint warnings (log : list event) : list string :=
  match log with
  | [] => []
  | EvWarn text :: rest => text :: warnings rest
  | _ :: rest => warnings rest
  end.

(** The paths whose existence was tested, in order. *)
Fixpoint probed (log : list event) : list string :=
  match log with
  | [] => []
  | EvExists path :: rest => path :: probed rest
  | _ :: rest => probed rest
  end.

(** A string-valued keyword of the failure report, if the process ended
    in [fail_json]. *)
Definition failure_field {A} (key : string) (s : step A) : option string :=
  match s with
  | Stop (FailJson kwargs) =>
      match assoc_get key kwargs with
      | Some (JString text) => Some text
      | _ => None
      end
  | _ => None
  end.

(** A keyword of the result payload, if the process ended in [exit_json]. *)
Definition result_field {A} (key : string) (s : step A) : option json_value :=
  match s with
  | Stop (ExitJson kwargs) => assoc_get key kwargs
  | _ => None
  end.

(** [outputs[name][field]]. *)
Definition output_field (name field : string) (outputs : json_value)
  : option json_value :=
  match json_field name outputs with
  | Some entry => json_field field entry
  | None => None
  end.

(** ** A decoder to run the module with

    The properties below hold for any decoder put in place of
    [json.loads].  To run the module on concrete inputs one decoder is
    spelled out: it reads the documents Terraform prints as long as they
    stay within objects, arrays, strings with the one-letter escapes,
    integers, [true], [false] and [null], and reports anything else
    (floating-point literals and [\u] escapes included) as a decode
    error. *)
Module Fragment.

Local Open Scope char_scope.

Definition is_ws (c : ascii) : bool :=
  Ascii.eqb c " " || Ascii.eqb c "009" || Ascii.eqb c "010" || Ascii.eqb c "013".

Fixpoint skip_ws (s : string) : string :=
  match s with
  | String c rest => if is_ws c then skip_ws rest else s
  | EmptyString => s
  end.

Definition digit_of (c : ascii) : option Z :=
  let n := Z.of_nat (nat_of_ascii c) in
  if ((48 <=? n) && (n <=? 57))%Z then Some (n - 48) else None.

(** The digits at the front of [s], read in base ten onto [acc]. *)
Fixpoint digits (acc : Z) (s : string) : Z * string :=
  match s with
  | String c rest =>
      match digit_of c with
      | Some d => digits (10 * acc + d) rest
      | None => (acc, s)
      end
  | EmptyString => (acc, s)
  end.

Definition starts_float_tail (s : string) : bool :=
  match s with
  | String c _ => Ascii.eqb c "." || Ascii.eqb c "e" || Ascii.eqb c "E"
  | EmptyString => false
  end.

(** An unsigned JSON integer: a lone [0], or digits not led by [0]. *)
Definition natural (s : string) : option (Z * string) :=
  match s with
  | String c rest =>
      match digit_of c with
      | Some 0 => if starts_float_tail rest then None else Some (0, rest)
      | Some d =>
          let '(n, rest') := digits d rest in
          if starts_float_tail rest' then None else Some (n, rest')
      | None => None
      end
  | EmptyString => None
  end.

Definition integer (s : string) : option (Z * string) :=
  match s with
  | String c rest =>
      if Ascii.eqb c "-"
      then match natural rest with
           | Some (n, rest') => Some (- n, rest')
           | None => None
           end
      else natural s
  | EmptyString => None
  end.

Definition unescape (c : ascii) : option ascii :=
  if Ascii.eqb c "034" then Some "034"
  else if Ascii.eqb c "\" then Some "\"
  else if Ascii.eqb c "/" then Some "/"
  else if Ascii.eqb c "b" then Some "008"
  else if Ascii.eqb c "f" then Some "012"
  else if Ascii.eqb c "n" then Some "010"
  else if Ascii.eqb c "r" then Some "013"
  else if Ascii.eqb c "t" then Some "009"
  else None.

(** The characters of a string literal after its opening quote, up to and
    past the closing one. *)
Fixpoint string_body (s : string) : option (string * string) :=
  match s with
  | EmptyString => None
  | String c rest =>
      if Ascii.eqb c "034" then Some (EmptyString, rest)
      else if Ascii.eqb c "\" then
        match rest with
        | String e rest' =>
            match unescape e, string_body rest' with
            | Some c', Some (body, after) => Some (String c' body, after)
            | _, _ => None
            end
        | EmptyString => None
        end
      else if (nat_of_ascii c <? 32)%nat then None
      else
        match string_body rest with
        | Some (body, after) => Some (String c body, after)
        | None => None
        end
  end.

(** [d[k] = v] on a dict: a repeated key keeps its place and takes the
    later value. *)
Fixpoint dict_set (k : string) (v : json_value)
    (entries : list (string * json_value)) : list (string * json_value) :=
  match entries with
  | [] => [(k, v)]
  | (k', v') :: rest =>
      if String.eqb k k' then (k', v) :: rest
      else (k', v') :: dict_set k v rest
  end.

Definition keyword (word : string) (s : string) : option string :=
  if String.prefix word s
  then Some (String.substring (String.length word)
               (String.length s - String.length word) s)
  else None.

Fixpoint value (fuel : nat) (s : string) {struct fuel}
  : option (json_value * string) :=
  match fuel with
  | O => None
  | S fuel =>
      match skip_ws s with
      | EmptyString => None
      | String c rest =>
          if Ascii.eqb c "{" then
            match skip_ws rest with
            | String c' rest' =>
                if Ascii.eqb c' "}" then Some (JDict [], rest')
                else members fuel rest []
            | EmptyString => None
            end
          else if Ascii.eqb c "[" then
            match skip_ws rest with
            | String c' rest' =>
                if Ascii.eqb c' "]" then Some (JList [], rest')
                else elements fuel rest []
            | EmptyString => None
            end
          else if Ascii.eqb c "034" then
            match string_body rest with
            | Some (text, after) => Some (JString text, after)
            | None => None
            end
          else
            match keyword "true" (String c rest),
                  keyword "false" (String c rest),
                  keyword "null" (String c rest) with
            | Some after, _, _ => Some (JBool true, after)
            | _, Some after, _ => Some (JBool false, after)
            | _, _, Some after => Some (JNull, after)
            | None, None, None =>
                match integer (String c rest) with
                | Some (n, after) => Some (JInt n, after)
                | None => None
                end
            end
      end
  end

with elements (fuel : nat) (s : string) (acc : list json_value) {struct fuel}
  : option (json_value * string) :=
  match fuel with
  | O => None
  | S fuel =>
      match value fuel s with
      | Some (v, after) =>
          match skip_ws after with
          | String c rest =>
              if Ascii.eqb c "," then elements fuel rest (acc ++ [v])
              else if Ascii.eqb c "]" then Some (JList (acc ++ [v]), rest)
              else None
          | EmptyString => None
          end
      | None => None
      end
  end

with members (fuel : nat) (s : string) (acc : list (string * json_value))
    {struct fuel} : option (json_value * string) :=
  match fuel with
  | O => None
  | S fuel =>
      match skip_ws s with
      | String q rest =>
          if Ascii.eqb q "034" then
            match string_body rest with
            | Some (key, after_key) =>
                match skip_ws after_key with
                | String colon rest' =>
                    if Ascii.eqb colon ":" then
                      match value fuel rest' with
                      | Some (v, after) =>
                          match skip_ws after with
                          | String c rest'' =>
                              if Ascii.eqb c ","
                              then members fuel rest'' (dict_set key v acc)
                              else if Ascii.eqb c "}"
                              then Some (JDict (dict_set key v acc), rest'')
                              else None
                          | EmptyString => None
                          end
                      | None => None
                      end
                    else None
                | EmptyString => None
                end
            | None => None
            end
          else None
      | EmptyString => None
      end
  end.

(** The whole text must be one value, white space aside. *)
Definition loads (text : string) : decoded :=
  match value (2 * String.length text + 2) text with
  | Some (v, after) =>
      match skip_ws after with
      | EmptyString => Decoded v
      | String _ _ => DecodeError "Extra data"%string
      end
  | None => DecodeError "Expecting value"%string
  end.

End Fragment.

(** ** Hosts to run the module on *)

(** A host whose file system holds exactly [files], whose lookup of
    [terraform] answers [lookup], and on which every subprocess ends with
    [outcome]. *)
Definition host (files : list string) (lookup : string + string)
    (outcome : Z * string * string) : world :=
  {| fs := fun p => existsb (String.eqb p) files;
     which := fun name =>
       if String.eqb name "terraform" then lookup
       else inr ("Failed to find required executable " ++ name);
     subprocess := fun _ _ => outcome |}.

(** One run on the decoder above. *)
Definition run (w : world) (p : params) : step unit * list event :=
  invoke Fragment.loads w p.

(** The output document of the module's own documentation. *)
Definition bukkit_text : string :=
  "{" ++ dquote ++ "bukkit_arn" ++ dquote ++ ": {"
  ++ dquote ++ "sensitive" ++ dquote ++ ": false, "
  ++ dquote ++ "type" ++ dquote ++ ": " ++ dquote ++ "string" ++ dquote ++ ", "
  ++ dquote ++ "value" ++ dquote ++ ": "
  ++ dquote ++ "arn:aws:s3:::tf-test-bukkit" ++ dquote ++ "}}".

Definition bukkit_outputs : list (string * json_value) :=
  [("bukkit_arn",
    JDict [("sensitive", JBool false);
           ("type", JString "string");
           ("value", JString "arn:aws:s3:::tf-test-bukkit")])].

(** The command line without state arguments. *)
Definition plain_argv (bin : string) : list string :=
  [bin; "output"; "-no-color"; "-json"].

(** A host with [terraform] at [/usr/bin/terraform], the state file
    [/srv/stack/prod.tfstate] and nothing else, on which the subprocess
    ends with [outcome]. *)
Definition stack_host (outcome : Z * string * string) : world :=
  host ["/srv/stack/prod.tfstate"] (inl "/usr/bin/terraform") outcome.

(** A host on which [terraform] is not to be found. *)
Definition bare_host : world :=
  host [] (inr "Failed to find required executable terraform") (0, "{}", "").

(** Parameters: only the project path; the binary given as well; a state
    file as well. *)
Definition in_project : params :=
  {| project_path := Some "/srv/stack";
     binary_path := None;
     state_file := None |}.

Definition with_binary (bin : string) : params :=
  {| project_path := Some "/srv/stack";
     binary_path := Some bin;
     state_file := None |}.

Definition with_state (binary : option string) (state : string) : params :=
  {| project_path := Some "/srv/stack";
     binary_path := binary;
     state_file := Some state |}.

(** ** The courses an invocation can take

    The module has no loop: an invocation goes through binary resolution,
    the state-file test, the subprocess and the verdict on its exit code,
    and may end at each of them.  The relations below name these courses;
    [invoke_course] shows that every invocation takes one of them. *)

(** How the binary was settled, and the events that took. *)
Inductive resolved (w : world) (p : params) : string -> list event -> Prop :=
| Given bin :
    binary_path p = Some bin ->
    resolved w p bin []
| Located bin :
    binary_path p = None ->
    which w "terraform" = inl bin ->
    resolved w p bin [EvLookup "terraform"].

(** A state file that does not stop the invocation: the arguments it
    contributes and the events that took. *)
Inductive state_ok (w : world) : option string -> list string -> list event -> Prop :=
| Omitted :
    state_ok w None [] []
| Blank :
    state_ok w (Some "") [] []
| Present path :
    on_disk w path = true ->
    state_ok w (Some path) ["-state"; path] [EvExists path].

Section Courses.

Variable json_loads : string -> decoded.

(** What the module makes of a subprocess that has exited: how the
    process ends and what it records on the way. *)
Inductive verdict (argv : list string)
  : Z * string * string -> stop -> list event -> Prop :=
| NoOutputs out err :
    verdict argv (1, out, err)
      (ExitJson [("outputs", JDict [])])
      [EvWarn (no_outputs_msg out err)]
| Fatal rc out err :
    rc <> 0 -> rc <> 1 ->
    verdict argv (rc, out, err)
      (FailJson [("msg", JString (outputs_failure_msg rc out err));
                 ("command", JString (join " " argv))])
      []
| Parsed out err v :
    json_loads out = Decoded v ->
    verdict argv (0, out, err) (ExitJson [("outputs", v)]) []
| Garbled out err e :
    json_loads out = DecodeError e ->
    verdict argv (0, out, err) (Uncaught e) [].

Inductive course (w : world) (p : params) : step unit * list event -> Prop :=
| LookupFailed err :
    binary_path p = None ->
    which w "terraform" = inr err ->
    course w p
      (Stop (FailJson [("msg", JString err)]), [EvLookup "terraform"])
| StateMissing bin pre path :
    resolved w p bin pre ->
    state_file p = Some path ->
    path <> "" ->
    on_disk w path = false ->
    course w p
      (Stop (FailJson [("msg", JString (missing_state_msg path))]),
       (pre ++ [EvExists path; EvExists path])%list)
| Ran bin pre args probes s after :
    resolved w p bin pre ->
    state_ok w (state_file p) args probes ->
    let argv := bin :: "output" :: "-no-color" :: "-json" :: args in
    verdict argv (subprocess w argv (project_path p)) s after ->
    course w p
      (Stop s,
       (pre ++ probes ++ EvSpawn argv (project_path p) :: after)%list).

End Courses.

(** ** The order of the module's calls *)

(** The stage of [main] a call belongs to: resolving the binary, testing
    the state file, running the subprocess, reporting on it. *)
Definition phase (e : event) : nat :=
  match e with
  | EvLookup _ => 0
  | EvExists _ => 1
  | EvSpawn _ _ => 2
  | EvWarn _ => 3
  end.

(** No call of a later stage comes before a call of an earlier one. *)
Fixpoint in_order (log : list event) : bool :=
  match log with
  | [] => true
  | e :: rest =>
      forallb (fun e' => (phase e <=? phase e')%nat) rest && in_order rest
  end.

(** The executables looked up, in order. *)
Fixpoint looked_up (log : list event) : list string :=
  match log with
  | [] => []
  | EvLookup name :: rest => name :: looked_up rest
  | _ :: rest => looked_up rest
  end.

(** [c not in s]. *)
Fixpoint lacks (c : ascii) (s : string) : bool :=
  match s with
  | EmptyString => true
  | String c' rest => negb (Ascii.eqb c c') && lacks c rest
  end.

(** ** Strings: containment *)

Lemma prefix_app (s t : string) : String.prefix s (s ++ t) = true.
Proof.
  induction s as [|c s IH]; simpl.
  - destruct t; reflexivity.
  - destruct (ascii_dec c c) as [_|ne]; [exact IH | now destruct ne].
Qed.

Lemma contains_unfold (s t : string) :
  contains s t
  = String.prefix s t
    || match t with
       | EmptyString => false
       | String _ rest => contains s rest
       end.
Proof. destruct t; reflexivity. Qed.

Lemma contains_here (s t : string) : contains s (s ++ t) = true.
Proof. rewrite contains_unfold, prefix_app. reflexivity. Qed.

Lemma contains_later (s pre t : string) :
  contains s t = true -> contains s (pre ++ t) = true.
Proof.
  intros H. induction pre as [|c pre IH]; [exact H|].
  rewrite contains_unfold. cbn [append]. rewrite IH. apply orb_true_r.
Qed.

(** A string occurs in whatever is built around it. *)
Lemma contains_middle (s pre post : string) :
  contains s (pre ++ s ++ post) = true.
Proof. apply contains_later, contains_here. Qed.

Lemma contains_self (s : string) : contains s s = true.
Proof.
  assert (E : s ++ "" = s)
    by (induction s as [|c s IH]; simpl; [reflexivity | now rewrite IH]).
  pose proof (contains_here s "") as H. now rewrite E in H.
Qed.

Lemma contains_end (s pre : string) : contains s (pre ++ s) = true.
Proof. apply contains_later, contains_self. Qed.

(** Finds a piece in a concatenation it is one of the operands of. *)
Ltac find_piece :=
  first [ apply contains_here
        | apply contains_self
        | apply contains_later; find_piece ].

(** ** The module, function by function *)

Lemma state_args_omitted (w : world) (log : list event) :
  _state_args None w log = (Ret [], log).
Proof. reflexivity. Qed.

Lemma state_args_blank (w : world) (log : list event) :
  _state_args (Some "") w log = (Ret [], log).
Proof. reflexivity. Qed.

Lemma on_disk_truthy (w : world) (path : string) :
  on_disk w path = true -> str_truthy path = true.
Proof. unfold on_disk. intros H. now apply andb_true_iff in H. Qed.

Lemma truthy_nonempty (path : string) :
  path <> "" <-> str_truthy path = true.
Proof. destruct path; simpl; split; congruence. Qed.

Lemma state_args_present (w : world) (log : list event) (path : string) :
  on_disk w path = true ->
  _state_args (Some path) w log
  = (Ret ["-state"; path], (log ++ [EvExists path])%list).
Proof.
  intros H. unfold _state_args, py_and.
  rewrite (on_disk_truthy _ _ H).
  unfold bind, os_path_exists, bind, emit, ask. rewrite H. reflexivity.
Qed.

Lemma state_args_missing (w : world) (log : list event) (path : string) :
  path <> "" ->
  on_disk w path = false ->
  _state_args (Some path) w log
  = (Stop (FailJson [("msg", JString (missing_state_msg path))]),
     (log ++ [EvExists path; EvExists path])%list).
Proof.
  intros Hne H. apply truthy_nonempty in Hne.
  unfold _state_args, py_and. rewrite Hne.
  unfold bind, os_path_exists, bind, emit, ask, ret. rewrite H. simpl.
  rewrite H. simpl. rewrite <- app_assoc. reflexivity.
Qed.

(** The state file either stops the invocation or passes one of the three
    ways of [state_ok]. *)
Lemma state_args_cases (w : world) (state_file : option string) :
  (exists path,
      state_file = Some path /\ path <> "" /\ on_disk w path = false)
  \/ (exists args probes,
        state_ok w state_file args probes /\
        forall log, _state_args state_file w log = (Ret args, (log ++ probes)%list)).
Proof.
  destruct state_file as [path|].
  - destruct path as [|c path].
    + right. exists [], []. split; [constructor|].
      intros log. rewrite app_nil_r. reflexivity.
    + destruct (on_disk w (String c path)) eqn:E.
      * right. exists ["-state"; String c path], [EvExists (String c path)].
        split; [now constructor|]. intros log. now apply state_args_present.
      * left. exists (String c path). repeat split; [discriminate | exact E].
  - right. exists [], []. split; [constructor|].
    intros log. rewrite app_nil_r. reflexivity.
Qed.

Section Properties.

Variable json_loads : string -> decoded.

(** Once the state file has passed, the rest of the invocation is the
    subprocess and the verdict on it. *)
Lemma outputs_then_exit (w : world) (bin : string) (cwd sf : option string)
    (args : list string) (probes : list event) :
  (forall log, _state_args sf w log = (Ret args, (log ++ probes)%list)) ->
  let argv := bin :: "output" :: "-no-color" :: "-json" :: args in
  exists s after,
    verdict json_loads argv (subprocess w argv cwd) s after /\
    forall log,
      (outputs <- get_outputs json_loads bin cwd sf ;; exit_json (A := unit) [("outputs", outputs)])
        w log
      = (Stop s, (log ++ probes ++ EvSpawn argv cwd :: after)%list).
Proof.
  intros Hargs argv.
  destruct (subprocess w argv cwd) as [[rc out] err] eqn:Hrun.
  assert (Hlog : forall log : list event,
             ((log ++ probes) ++ [EvSpawn argv cwd])%list
             = (log ++ probes ++ [EvSpawn argv cwd])%list)
    by (intros; now rewrite <- app_assoc).
  destruct (Z.eqb_spec rc 1) as [->|Hne1];
    [|destruct (Z.eqb_spec rc 0) as [->|Hne0]].
  - exists (ExitJson [("outputs", JDict [])]), [EvWarn (no_outputs_msg out err)].
    split; [constructor|]. intros log.
    unfold get_outputs, bind. rewrite Hargs.
    unfold run_command, bind, emit, ask. cbn [app]. fold argv. rewrite Hrun.
    cbn. rewrite <- !app_assoc. reflexivity.
  - exists (match json_loads out with
            | Decoded v => ExitJson [("outputs", v)]
            | DecodeError e => Uncaught e
            end), [].
    split.
    + destruct (json_loads out) eqn:Hdec; now constructor.
    + intros log.
      unfold get_outputs, bind. rewrite Hargs.
      unfold run_command, bind, emit, ask. cbn [app]. fold argv. rewrite Hrun.
      cbn. unfold loads. rewrite <- !app_assoc.
      destruct (json_loads out); reflexivity.
  - exists (FailJson [("msg", JString (outputs_failure_msg rc out err));
                      ("command", JString (join " " argv))]), [].
    split; [now constructor|]. intros log.
    unfold get_outputs, bind. rewrite Hargs.
    unfold run_command, bind, emit, ask. cbn [app]. fold argv. rewrite Hrun.
    destruct (Z.eqb_spec rc 1) as [|_]; [contradiction|].
    destruct (Z.eqb_spec rc 0) as [|_]; [contradiction|].
    cbn. rewrite <- !app_assoc. reflexivity.
Qed.

(** A state file that is supplied, not blank and not on disk ends
    [get_outputs] before it reaches [run_command]. *)
Lemma get_outputs_state_missing (w : world) (bin : string)
    (cwd : option string) (path : string) (log : list event) :
  path <> "" ->
  on_disk w path = false ->
  get_outputs json_loads bin cwd (Some path) w log
  = (Stop (FailJson [("msg", JString (missing_state_msg path))]),
     (log ++ [EvExists path; EvExists path])%list).
Proof.
  intros Hne Hoff. unfold get_outputs, bind.
  now rewrite state_args_missing.
Qed.

(** Every invocation takes one of the courses. *)
Lemma invoke_course (w : world) (p : params) : course json_loads w p (invoke json_loads w p).
Proof.
  unfold invoke, main.
  assert (Hrest : forall bin pre,
             resolved w p bin pre ->
             course json_loads w p
               ((outputs <- get_outputs json_loads bin (project_path p) (state_file p) ;;
                 exit_json (A := unit) [("outputs", outputs)]) w pre)).
  { intros bin pre Hres.
    destruct (state_args_cases w (state_file p))
      as [(path & Hsf & Hne & Hoff) | (args & probes & Hok & Hargs)].
    - unfold bind at 1. rewrite Hsf, get_outputs_state_missing by assumption.
      now apply StateMissing with (bin := bin).
    - destruct (outputs_then_exit w bin (project_path p) _ _ _ Hargs)
        as (s & after & Hv & Hrun).
      rewrite Hrun. now apply Ran. }
  destruct (binary_path p) as [bin|] eqn:Hbin.
  - unfold bind at 1, ret. apply Hrest. now constructor.
  - unfold bind at 1, get_bin_path, bind, emit, ask. cbn [app].
    destruct (which w "terraform") as [bin|err] eqn:Hwhich.
    + unfold ret. apply Hrest. now constructor.
    + now apply LookupFailed.
Qed.

(** [main] does not return: every invocation ends the process. *)
Lemma invoke_stops (w : world) (p : params) :
  exists s, fst (invoke json_loads w p) = Stop s.
Proof.
  destruct (invoke_course w p); eexists; reflexivity.
Qed.

(** Neither binary resolution nor the state-file test starts a process
    or records a warning. *)
Lemma resolved_quiet (w : world) (p : params) (bin : string) (pre : list event) :
  resolved w p bin pre -> spawned pre = [] /\ warnings pre = [].
Proof. destruct 1; split; reflexivity. Qed.

Lemma state_ok_quiet (w : world) (sf : option string) (args : list string)
    (probes : list event) :
  state_ok w sf args probes -> spawned probes = [] /\ warnings probes = [].
Proof. destruct 1; split; reflexivity. Qed.

Lemma verdict_spawns_nothing (argv : list string) (r : Z * string * string)
    (s : stop) (after : list event) :
  verdict json_loads argv r s after -> spawned after = [].
Proof. destruct 1; reflexivity. Qed.

Lemma spawned_app (l1 l2 : list event) :
  spawned (l1 ++ l2) = (spawned l1 ++ spawned l2)%list.
Proof.
  induction l1 as [|e l1 IH]; [reflexivity|].
  destruct e; simpl; now rewrite IH.
Qed.

Lemma warnings_app (l1 l2 : list event) :
  warnings (l1 ++ l2) = (warnings l1 ++ warnings l2)%list.
Proof.
  induction l1 as [|e l1 IH]; [reflexivity|].
  destruct e; simpl; now rewrite IH.
Qed.

Lemma spawned_In (log : list event) (argv : list string) (cwd : option string) :
  In (EvSpawn argv cwd) log <-> In (argv, cwd) (spawned log).
Proof.
  induction log as [|e log IH]; [reflexivity|].
  destruct e; simpl; rewrite <- IH;
    intuition (try discriminate; try (left; congruence)).
Qed.

(** A subprocess in the log is the one of the [Ran] course. *)
Lemma spawn_inv (w : world) (p : params) (argv : list string)
    (cwd : option string) :
  In (EvSpawn argv cwd) (snd (invoke json_loads w p)) ->
  exists bin pre args probes s after,
    resolved w p bin pre /\
    state_ok w (state_file p) args probes /\
    argv = bin :: "output" :: "-no-color" :: "-json" :: args /\
    cwd = project_path p /\
    verdict json_loads argv (subprocess w argv cwd) s after /\
    invoke json_loads w p
    = (Stop s, (pre ++ probes ++ EvSpawn argv cwd :: after)%list).
Proof.
  intros Hin. apply spawned_In in Hin.
  pose proof (invoke_course w p) as C.
  inversion C as [ e Hbin Hw Heq
                 | bin pre path Hres Hsf Hne Hoff Heq
                 | bin pre args probes s after Hres Hok argv0 Hv Heq ];
    rewrite <- Heq in Hin; cbn [snd] in Hin.
  - contradiction.
  - rewrite spawned_app in Hin.
    rewrite (proj1 (resolved_quiet _ _ _ _ Hres)) in Hin. contradiction.
  - rewrite !spawned_app in Hin. cbn [spawned] in Hin.
    rewrite (proj1 (resolved_quiet _ _ _ _ Hres)) in Hin.
    rewrite (proj1 (state_ok_quiet _ _ _ _ Hok)) in Hin.
    rewrite (verdict_spawns_nothing _ _ _ _ Hv) in Hin.
    destruct Hin as [Hin | []]. injection Hin as <- <-.
    exists bin, pre, args, probes, s, after. now repeat split.
Qed.

(** At most one subprocess is started. *)
Lemma at_most_one_spawn (w : world) (p : params) :
  (length (spawned (snd (invoke json_loads w p))) <= 1)%nat.
Proof.
  pose proof (invoke_course w p) as C.
  inversion C as [ e Hbin Hw Heq
                 | bin pre path Hres Hsf Hne Hoff Heq
                 | bin pre args probes s after Hres Hok argv0 Hv Heq ];
    cbn [snd]; rewrite ?spawned_app; cbn [spawned];
    try rewrite (proj1 (resolved_quiet _ _ _ _ Hres));
    try rewrite (proj1 (state_ok_quiet _ _ _ _ Hok));
    try rewrite (verdict_spawns_nothing _ _ _ _ Hv); simpl; lia.
Qed.

(** The warnings of a [Ran] course are those of the verdict. *)
Lemma ran_warnings (w : world) (p : params) (bin : string)
    (pre probes after : list event) (args argv : list string)
    (cwd : option string) :
  resolved w p bin pre ->
  state_ok w (state_file p) args probes ->
  warnings (pre ++ probes ++ EvSpawn argv cwd :: after) = warnings after.
Proof.
  intros Hres Hok. rewrite !warnings_app. cbn [warnings].
  rewrite (proj2 (resolved_quiet _ _ _ _ Hres)).
  rewrite (proj2 (state_ok_quiet _ _ _ _ Hok)). reflexivity.
Qed.

(** ** The exit codes *)

(** C3. Whenever the subprocess exits with code 1 the invocation ends in
    [exit_json] with the empty mapping under [outputs], not in a
    failure, and exactly one warning is recorded; its text carries both
    the captured standard output and the captured standard error. *)
Theorem exit_code_one_warns_and_returns_empty
    (w : world) (p : params) (argv : list string) (cwd : option string)
    (out err : string) :
  In (EvSpawn argv cwd) (snd (invoke json_loads w p)) ->
  subprocess w argv cwd = (1, out, err) ->
  fst (invoke json_loads w p) = Stop (ExitJson [("outputs", JDict [])]) /\
  warnings (snd (invoke json_loads w p)) = [no_outputs_msg out err] /\
  contains out (no_outputs_msg out err) = true /\
  contains err (no_outputs_msg out err) = true.
Proof.
  intros Hin Hrun.
  destruct (spawn_inv _ _ _ _ Hin)
    as (bin & pre & args & probes & s & after & Hres & Hok & _ & _ & Hv & ->).
  rewrite Hrun in Hv. cbn [fst snd].
  rewrite (ran_warnings _ _ _ _ _ _ _ _ _ Hres Hok).
  inversion Hv; subst; try congruence.
  repeat split; unfold no_outputs_msg; find_piece.
Qed.

(** C1. Whenever the subprocess exits with code 0 and its standard output
    decodes to a JSON object, the invocation ends in [exit_json] whose
    only keyword is [outputs], and the value under it is the decoded
    object itself: every entry, and in every entry the [sensitive],
    [type] and [value] fields, read the same from the result as from the
    decoded standard output. *)
Theorem exit_code_zero_returns_decoded_outputs
    (w : world) (p : params) (argv : list string) (cwd : option string)
    (out err : string) (entries : list (string * json_value)) :
  In (EvSpawn argv cwd) (snd (invoke json_loads w p)) ->
  subprocess w argv cwd = (0, out, err) ->
  json_loads out = Decoded (JDict entries) ->
  fst (invoke json_loads w p) = Stop (ExitJson [("outputs", JDict entries)]) /\
  exists returned,
    result_field "outputs" (fst (invoke json_loads w p)) = Some returned /\
    returned = JDict entries /\
    forall name,
      json_field name returned = assoc_get name entries /\
      output_field name "sensitive" returned
      = output_field name "sensitive" (JDict entries) /\
      output_field name "type" returned
      = output_field name "type" (JDict entries) /\
      output_field name "value" returned
      = output_field name "value" (JDict entries).
Proof.
  intros Hin Hrun Hdec.
  destruct (spawn_inv _ _ _ _ Hin)
    as (bin & pre & args & probes & s & after & _ & _ & _ & _ & Hv & ->).
  rewrite Hrun in Hv. cbn [fst].
  inversion Hv; subst; try congruence.
  assert (v = JDict entries) as -> by congruence.
  split; [reflexivity|].
  exists (JDict entries). repeat split; reflexivity.
Qed.

(** C4, as the code has it.  Whenever the subprocess exits with a code
    other than 0 and 1 the invocation ends in [fail_json].  The report
    has two keywords: [msg], whose text contains the exit code, the
    captured standard output and the captured standard error, and
    [command], which is the command line joined with single spaces.
    The command line is reported beside the message, not inside it. *)
Theorem other_exit_codes_fail_with_message_and_command
    (w : world) (p : params) (argv : list string) (cwd : option string)
    (rc : Z) (out err : string) :
  In (EvSpawn argv cwd) (snd (invoke json_loads w p)) ->
  subprocess w argv cwd = (rc, out, err) ->
  rc <> 0 -> rc <> 1 ->
  fst (invoke json_loads w p)
  = Stop (FailJson [("msg", JString (outputs_failure_msg rc out err));
                    ("command", JString (join " " argv))]) /\
  failure_field "msg" (fst (invoke json_loads w p))
  = Some (outputs_failure_msg rc out err) /\
  contains (str_of_int rc) (outputs_failure_msg rc out err) = true /\
  contains out (outputs_failure_msg rc out err) = true /\
  contains err (outputs_failure_msg rc out err) = true /\
  failure_field "command" (fst (invoke json_loads w p))
  = Some (join " " argv).
Proof.
  intros Hin Hrun Hne0 Hne1.
  destruct (spawn_inv _ _ _ _ Hin)
    as (bin & pre & args & probes & s & after & _ & _ & _ & _ & Hv & ->).
  rewrite Hrun in Hv. cbn [fst].
  inversion Hv; subst; try congruence.
  repeat split; unfold outputs_failure_msg; find_piece.
Qed.

(** C7. Whenever the subprocess exits with code 0 and its standard output
    does not decode, the decoder's error leaves the module as it was
    raised: no warning is recorded, no result payload (empty or
    otherwise) is produced, and there is no failure report, hence no
    message and no command line. *)
Theorem undecodable_output_propagates
    (w : world) (p : params) (argv : list string) (cwd : option string)
    (out err e : string) :
  In (EvSpawn argv cwd) (snd (invoke json_loads w p)) ->
  subprocess w argv cwd = (0, out, err) ->
  json_loads out = DecodeError e ->
  fst (invoke json_loads w p) = Stop (Uncaught e) /\
  warnings (snd (invoke json_loads w p)) = [] /\
  result_field "outputs" (fst (invoke json_loads w p)) = None /\
  failure_field "msg" (fst (invoke json_loads w p)) = None /\
  failure_field "command" (fst (invoke json_loads w p)) = None.
Proof.
  intros Hin Hrun Hdec.
  destruct (spawn_inv _ _ _ _ Hin)
    as (bin & pre & args & probes & s & after & Hres & Hok & _ & _ & Hv & ->).
  rewrite Hrun in Hv. cbn [fst snd].
  rewrite (ran_warnings _ _ _ _ _ _ _ _ _ Hres Hok).
  inversion Hv; subst; try congruence.
  assert (e0 = e) as -> by congruence.
  repeat split; reflexivity.
Qed.

(** ** The state file *)

(** C2, as the code has it.  For every supplied state file whose path is
    not the empty string and does not exist on disk, [get_outputs], which
    the top-level entry reaches as soon as the binary is settled, fails
    before any subprocess is started, and the message of the failure
    contains the path. *)
Theorem missing_state_file_fails_before_spawn
    (w : world) (p : params) (path : string) :
  state_file p = Some path ->
  path <> "" ->
  on_disk w path = false ->
  (binary_path p = None -> exists bin, which w "terraform" = inl bin) ->
  fst (invoke json_loads w p)
  = Stop (FailJson [("msg", JString (missing_state_msg path))]) /\
  failure_field "msg" (fst (invoke json_loads w p))
  = Some (missing_state_msg path) /\
  contains path (missing_state_msg path) = true /\
  spawned (snd (invoke json_loads w p)) = [] /\
  forall bin cwd log,
    fst (get_outputs json_loads bin cwd (Some path) w log)
    = Stop (FailJson [("msg", JString (missing_state_msg path))]) /\
    spawned (snd (get_outputs json_loads bin cwd (Some path) w log))
    = spawned log.
Proof.
  intros Hsf Hne Hoff Hbin.
  assert (Hfn : forall bin cwd log,
             fst (get_outputs json_loads bin cwd (Some path) w log)
             = Stop (FailJson [("msg", JString (missing_state_msg path))]) /\
             spawned (snd (get_outputs json_loads bin cwd (Some path) w log))
             = spawned log).
  { intros bin cwd log. rewrite get_outputs_state_missing by assumption.
    cbn [fst snd]. rewrite spawned_app, app_nil_r. now split. }
  pose proof (invoke_course w p) as C.
  inversion C as [ e Hnone Hw Heq
                 | bin pre path0 Hres Hsf0 Hne0 Hoff0 Heq
                 | bin pre args probes s after Hres Hok argv0 Hv Heq ].
  - destruct (Hbin Hnone) as [bin Hfound]. congruence.
  - assert (path0 = path) as -> by congruence. cbn [fst snd].
    rewrite spawned_app, (proj1 (resolved_quiet _ _ _ _ Hres)).
    repeat split; try reflexivity; try apply Hfn.
    unfold missing_state_msg. find_piece.
  - rewrite Hsf in Hok. inversion Hok; subst; congruence.
Qed.

(** C5. The command line of the subprocess is the binary followed by
    [output -no-color -json]; when the state file is supplied and exists
    on disk the two arguments [-state <path>] come right after these, and
    otherwise nothing does.  With the state file omitted no argument is
    [-state].  The binary is the supplied one or the one the lookup
    found, and the working directory is the project path. *)
Theorem command_line_shape
    (w : world) (p : params) (argv : list string) (cwd : option string) :
  In (EvSpawn argv cwd) (snd (invoke json_loads w p)) ->
  exists bin,
    (binary_path p = Some bin \/
     binary_path p = None /\ which w "terraform" = inl bin) /\
    cwd = project_path p /\
    ((exists path,
        state_file p = Some path /\ on_disk w path = true /\
        argv = ([bin; "output"; "-no-color"; "-json"] ++ ["-state"; path])%list)
     \/
     ((forall path, state_file p = Some path -> on_disk w path = false) /\
      argv = [bin; "output"; "-no-color"; "-json"])) /\
    (state_file p = None -> ~ In "-state" (tl argv)) /\
    spawned (snd (invoke json_loads w p)) = [(argv, cwd)].
Proof.
  intros Hin.
  destruct (spawn_inv _ _ _ _ Hin)
    as (bin & pre & args & probes & s & after & Hres & Hok & -> & -> & Hv & E).
  exists bin. split; [|split; [reflexivity|split; [|split]]].
  - destruct Hres; [left | right]; auto.
  - inversion Hok as [Hsf | Hsf | path Hon Hsf]; subst.
    + right. split; [|reflexivity]. intros path Hp. congruence.
    + right. split; [|reflexivity]. intros path Hp.
      assert (path = "") as -> by congruence. reflexivity.
    + left. exists path. auto.
  - intros Hnone. rewrite Hnone in Hok. inversion Hok; subst.
    cbn. intros [H|[H|[H|[]]]]; discriminate.
  - rewrite E. cbn [snd]. rewrite !spawned_app. cbn [spawned].
    rewrite (proj1 (resolved_quiet _ _ _ _ Hres)).
    rewrite (proj1 (state_ok_quiet _ _ _ _ Hok)).
    now rewrite (verdict_spawns_nothing _ _ _ _ Hv).
Qed.

(** C8. A state file given as the empty string does not make the module
    fail.  The empty string is falsy, so each conjunction of
    [_state_args] ends at its first operand whatever the existence test
    would say; [_state_args] answers with no arguments and leaves the log
    as it found it, exactly as for an omitted state file, and so do
    [get_outputs] and the whole invocation. *)
Theorem blank_state_file_is_treated_as_omitted (w : world) :
  (forall test : M bool, py_and (str_truthy "") test = ret false) /\
  (forall log, _state_args (Some "") w log = (Ret [], log)) /\
  (forall log, _state_args (Some "") w log = _state_args None w log) /\
  (forall bin cwd log,
      get_outputs json_loads bin cwd (Some "") w log
      = get_outputs json_loads bin cwd None w log) /\
  (forall project binary,
      invoke json_loads w
        {| project_path := project; binary_path := binary;
           state_file := Some "" |}
      = invoke json_loads w
          {| project_path := project; binary_path := binary;
             state_file := None |}).
Proof. repeat split. Qed.

(** ** The binary *)

Lemma lookups_of_resolved (w : world) (p : params) (bin : string)
    (pre : list event) (b : string) :
  resolved w p bin pre -> binary_path p = Some b -> bin = b /\ pre = [].
Proof. destruct 1; intros Hb; split; congruence. Qed.

(** C9.  With no binary path given and a lookup that fails, the invocation
    ends in the failure of the lookup, carrying the lookup's own error
    text, whatever the state file is and whether or not it exists: the
    only thing the module has done by then is the lookup, so the state
    file has not been tested and its error cannot be the one reported. *)
Theorem lookup_failure_comes_first
    (w : world) (p : params) (path e : string) :
  binary_path p = None ->
  which w "terraform" = inr e ->
  state_file p = Some path ->
  on_disk w path = false ->
  invoke json_loads w p
  = (Stop (FailJson [("msg", JString e)]), [EvLookup "terraform"]) /\
  failure_field "msg" (fst (invoke json_loads w p)) = Some e /\
  probed (snd (invoke json_loads w p)) = [] /\
  spawned (snd (invoke json_loads w p)) = [].
Proof.
  intros Hnone Hw _ _.
  assert (E : invoke json_loads w p
              = (Stop (FailJson [("msg", JString e)]), [EvLookup "terraform"])).
  { unfold invoke, main. rewrite Hnone.
    unfold bind at 1, get_bin_path, bind, emit, ask.
    now rewrite Hw. }
  rewrite E. repeat split.
Qed.

(** C6.  With a binary path given, the subprocess is started on that path
    as it stands and no lookup takes place.  With none given, the first
    thing the module does is look [terraform] up; the subprocess is
    started on what the lookup found, and when it found nothing the
    invocation ends in [fail_json] with no subprocess started. *)
Theorem binary_is_given_or_looked_up (w : world) (p : params) :
  (forall bin,
      binary_path p = Some bin ->
      (forall name, ~ In (EvLookup name) (snd (invoke json_loads w p))) /\
      (forall argv cwd,
          In (EvSpawn argv cwd) (snd (invoke json_loads w p)) ->
          hd_error argv = Some bin)) /\
  (binary_path p = None ->
      hd_error (snd (invoke json_loads w p)) = Some (EvLookup "terraform") /\
      (forall bin,
          which w "terraform" = inl bin ->
          forall argv cwd,
            In (EvSpawn argv cwd) (snd (invoke json_loads w p)) ->
            hd_error argv = Some bin) /\
      (forall e,
          which w "terraform" = inr e ->
          fst (invoke json_loads w p) = Stop (FailJson [("msg", JString e)]) /\
          spawned (snd (invoke json_loads w p)) = [])).
Proof.
  split.
  - intros b Hb. split.
    + intros name.
      pose proof (invoke_course w p) as C.
      inversion C as [ e Hnone Hw Heq
                     | bin pre path0 Hres Hsf0 Hne0 Hoff0 Heq
                     | bin pre args probes s after Hres Hok argv0 Hv Heq ];
        [congruence | |];
        destruct (lookups_of_resolved _ _ _ _ _ Hres Hb) as [-> ->];
        cbn [snd app].
      * intros [H|[H|[]]]; discriminate.
      * intros H. apply in_app_or in H. destruct H as [H|[H|H]].
        -- destruct Hok; cbn in H; intuition discriminate.
        -- discriminate.
        -- destruct Hv; cbn in H; intuition discriminate.
    + intros argv cwd Hin.
      destruct (spawn_inv _ _ _ _ Hin)
        as (bin & pre & args & probes & s & after & Hres & _ & -> & _).
      destruct (lookups_of_resolved _ _ _ _ _ Hres Hb) as [-> _]. reflexivity.
  - intros Hnone. split; [|split].
    + pose proof (invoke_course w p) as C.
      inversion C as [ e Hnone' Hw Heq
                     | bin pre path0 Hres Hsf0 Hne0 Hoff0 Heq
                     | bin pre args probes s after Hres Hok argv0 Hv Heq ];
        [reflexivity | |]; destruct Hres; try congruence; reflexivity.
    + intros b Hb argv cwd Hin.
      destruct (spawn_inv _ _ _ _ Hin)
        as (bin & pre & args & probes & s & after & Hres & _ & -> & _).
      destruct Hres; [congruence|]. cbn. congruence.
    + intros e Hw.
      pose proof (invoke_course w p) as C.
      inversion C as [ e' Hnone' Hw' Heq
                     | bin pre path0 Hres Hsf0 Hne0 Hoff0 Heq
                     | bin pre args probes s after Hres Hok argv0 Hv Heq ].
      * cbn. split; [congruence | reflexivity].
      * destruct Hres; congruence.
      * destruct Hres; congruence.
Qed.

(** ** Determinism *)

Lemma state_ok_runs (w : world) (sf : option string) (args : list string)
    (probes : list event) :
  state_ok w sf args probes ->
  forall log, _state_args sf w log = (Ret args, (log ++ probes)%list).
Proof.
  destruct 1; intros log.
  - now rewrite app_nil_r.
  - now rewrite app_nil_r.
  - now apply state_args_present.
Qed.

Lemma verdict_functional (argv : list string) (r : Z * string * string)
    (s s' : stop) (after after' : list event) :
  verdict json_loads argv r s after ->
  verdict json_loads argv r s' after' ->
  s = s' /\ after = after'.
Proof.
  intros V V'. destruct V; inversion V'; subst; try congruence; auto;
    split; congruence.
Qed.

(** A course is not only possible: it is what the invocation does. *)
Lemma course_complete (w : world) (p : params) (r : step unit * list event) :
  course json_loads w p r -> invoke json_loads w p = r.
Proof.
  assert (Hpre : forall bin pre,
             resolved w p bin pre ->
             invoke json_loads w p
             = (outputs <- get_outputs json_loads bin (project_path p)
                             (state_file p) ;;
                exit_json (A := unit) [("outputs", outputs)]) w pre).
  { intros bin pre Hres. unfold invoke, main.
    destruct Hres as [bin Hb | bin Hb Hw]; rewrite Hb; unfold bind at 1.
    - reflexivity.
    - unfold get_bin_path, bind, emit, ask. now rewrite Hw. }
  intros C.
  destruct C as [ e Hnone Hw
                | bin pre path Hres Hsf Hne Hoff
                | bin pre args probes s after Hres Hok argv Hv ].
  - unfold invoke, main. rewrite Hnone.
    unfold bind at 1, get_bin_path, bind, emit, ask. now rewrite Hw.
  - rewrite (Hpre _ _ Hres). unfold bind at 1.
    now rewrite Hsf, get_outputs_state_missing.
  - rewrite (Hpre _ _ Hres).
    destruct (outputs_then_exit w bin (project_path p) _ _ _
                (state_ok_runs _ _ _ _ Hok))
      as (s' & after' & Hv' & Hrun).
    rewrite Hrun.
    destruct (verdict_functional _ _ _ _ _ _ Hv Hv') as [-> ->]. reflexivity.
Qed.

(** C10, as the code has it.  Two invocations with the same parameters
    on two hosts give the same result (the way the process ends, with its
    payload or failure report, and everything recorded on the way) as
    soon as the hosts agree on three things: the answer of the lookup of
    [terraform] if the binary has to be looked up, the existence of the
    state file if one is supplied, and the outcome of the subprocess. *)
Theorem same_answers_same_result (w1 w2 : world) (p : params) :
  (binary_path p = None -> which w1 "terraform" = which w2 "terraform") ->
  (forall path, state_file p = Some path -> on_disk w1 path = on_disk w2 path) ->
  (forall argv cwd,
      In (EvSpawn argv cwd) (snd (invoke json_loads w1 p)) ->
      subprocess w1 argv cwd = subprocess w2 argv cwd) ->
  invoke json_loads w1 p = invoke json_loads w2 p.
Proof.
  intros Hwhich Hdisk Hproc.
  assert (Hres : forall bin pre, resolved w1 p bin pre -> resolved w2 p bin pre).
  { intros bin pre [b Hb | b Hb Hw]; [now apply Given|].
    apply Located; [assumption|]. now rewrite <- Hwhich. }
  assert (Hok : forall args probes,
             state_ok w1 (state_file p) args probes ->
             state_ok w2 (state_file p) args probes).
  { intros args probes H. inversion H as [Hsf | Hsf | path Hon Hsf];
      constructor. rewrite <- (Hdisk path); auto. }
  symmetry. apply course_complete.
  pose proof (invoke_course w1 p) as C.
  inversion C as [ e Hnone Hw Heq
                 | bin pre path Hr Hsf Hne Hoff Heq
                 | bin pre args probes s after Hr Hs argv Hv Heq ].
  - apply LookupFailed; [assumption|]. now rewrite <- Hwhich.
  - apply StateMissing with (bin := bin); auto.
    now rewrite <- (Hdisk path).
  - apply Ran; auto. fold argv.
    rewrite <- (Hproc argv (project_path p)); [exact Hv|].
    rewrite <- Heq. cbn [snd]. apply in_or_app. right.
    apply in_or_app. right. now left.
Qed.

End Properties.

(** ** The module at work

    The scenarios of the specification and of the module's documentation,
    run on the hosts above. *)

Example run_bukkit :
  run (stack_host (0, bukkit_text, "")) in_project
  = (Stop (ExitJson [("outputs", JDict bukkit_outputs)]),
     [EvLookup "terraform";
      EvSpawn (plain_argv "/usr/bin/terraform") (Some "/srv/stack")]).
Proof. vm_compute. reflexivity. Qed.

Example run_no_outputs :
  run (stack_host (1, "", "no outputs")) in_project
  = (Stop (ExitJson [("outputs", JDict [])]),
     [EvLookup "terraform";
      EvSpawn (plain_argv "/usr/bin/terraform") (Some "/srv/stack");
      EvWarn (no_outputs_msg "" "no outputs")]).
Proof. vm_compute. reflexivity. Qed.

Example run_boom :
  run (stack_host (2, "", "boom")) in_project
  = (Stop (FailJson
             [("msg", JString (outputs_failure_msg 2 "" "boom"));
              ("command", JString "/usr/bin/terraform output -no-color -json")]),
     [EvLookup "terraform";
      EvSpawn (plain_argv "/usr/bin/terraform") (Some "/srv/stack")]).
Proof. vm_compute. reflexivity. Qed.

Example run_with_state :
  snd (run (stack_host (0, "{}", ""))
         (with_state (Some "terraform") "/srv/stack/prod.tfstate"))
  = [EvExists "/srv/stack/prod.tfstate";
     EvSpawn ["terraform"; "output"; "-no-color"; "-json";
              "-state"; "/srv/stack/prod.tfstate"]
       (Some "/srv/stack")].
Proof. vm_compute. reflexivity. Qed.

Example run_nonexistent_state :
  run (stack_host (0, "{}", ""))
    (with_state (Some "terraform") "/tmp/nonexistent.tfstate")
  = (Stop (FailJson
             [("msg", JString (missing_state_msg "/tmp/nonexistent.tfstate"))]),
     [EvExists "/tmp/nonexistent.tfstate"; EvExists "/tmp/nonexistent.tfstate"]).
Proof. vm_compute. reflexivity. Qed.

Example boom_message_mentions_code_and_stderr :
  contains "2" (outputs_failure_msg 2 "" "boom") = true /\
  contains "boom" (outputs_failure_msg 2 "" "boom") = true /\
  contains "no outputs" (no_outputs_msg "" "no outputs") = true.
Proof. vm_compute. repeat split. Qed.

(** ** The properties on concrete hosts *)

Lemma exit_code_zero_returns_decoded_outputs_witness :
  In (EvSpawn (plain_argv "/usr/bin/terraform") (Some "/srv/stack"))
     (snd (run (stack_host (0, bukkit_text, "")) in_project)) /\
  subprocess (stack_host (0, bukkit_text, ""))
    (plain_argv "/usr/bin/terraform") (Some "/srv/stack")
  = (0, bukkit_text, "") /\
  Fragment.loads bukkit_text = Decoded (JDict bukkit_outputs) /\
  fst (run (stack_host (0, bukkit_text, "")) in_project)
  = Stop (ExitJson [("outputs", JDict bukkit_outputs)]).
Proof.
  assert (H1 : In (EvSpawn (plain_argv "/usr/bin/terraform") (Some "/srv/stack"))
                 (snd (run (stack_host (0, bukkit_text, "")) in_project)))
    by (vm_compute; auto).
  assert (H2 : subprocess (stack_host (0, bukkit_text, ""))
                 (plain_argv "/usr/bin/terraform") (Some "/srv/stack")
               = (0, bukkit_text, "")) by reflexivity.
  assert (H3 : Fragment.loads bukkit_text = Decoded (JDict bukkit_outputs))
    by (vm_compute; reflexivity).
  exact (conj H1 (conj H2 (conj H3
           (proj1 (exit_code_zero_returns_decoded_outputs Fragment.loads
                     (stack_host (0, bukkit_text, "")) in_project
                     _ _ _ _ _ H1 H2 H3))))).
Defined.

Lemma exit_code_one_warns_and_returns_empty_witness :
  In (EvSpawn (plain_argv "/usr/bin/terraform") (Some "/srv/stack"))
     (snd (run (stack_host (1, "", "no outputs")) in_project)) /\
  subprocess (stack_host (1, "", "no outputs"))
    (plain_argv "/usr/bin/terraform") (Some "/srv/stack")
  = (1, "", "no outputs") /\
  fst (run (stack_host (1, "", "no outputs")) in_project)
  = Stop (ExitJson [("outputs", JDict [])]) /\
  warnings (snd (run (stack_host (1, "", "no outputs")) in_project))
  = [no_outputs_msg "" "no outputs"].
Proof.
  assert (H1 : In (EvSpawn (plain_argv "/usr/bin/terraform") (Some "/srv/stack"))
                 (snd (run (stack_host (1, "", "no outputs")) in_project)))
    by (vm_compute; auto).
  assert (H2 : subprocess (stack_host (1, "", "no outputs"))
                 (plain_argv "/usr/bin/terraform") (Some "/srv/stack")
               = (1, "", "no outputs")) by reflexivity.
  destruct (exit_code_one_warns_and_returns_empty Fragment.loads
              (stack_host (1, "", "no outputs")) in_project
              _ _ _ _ H1 H2) as (R & W & _).
  exact (conj H1 (conj H2 (conj R W))).
Defined.

Lemma other_exit_codes_fail_with_message_and_command_witness :
  In (EvSpawn (plain_argv "/usr/bin/terraform") (Some "/srv/stack"))
     (snd (run (stack_host (2, "", "boom")) in_project)) /\
  subprocess (stack_host (2, "", "boom"))
    (plain_argv "/usr/bin/terraform") (Some "/srv/stack")
  = (2, "", "boom") /\
  2 <> 0 /\ 2 <> 1 /\
  failure_field "msg" (fst (run (stack_host (2, "", "boom")) in_project))
  = Some (outputs_failure_msg 2 "" "boom") /\
  failure_field "command" (fst (run (stack_host (2, "", "boom")) in_project))
  = Some (join " " (plain_argv "/usr/bin/terraform")).
Proof.
  assert (H1 : In (EvSpawn (plain_argv "/usr/bin/terraform") (Some "/srv/stack"))
                 (snd (run (stack_host (2, "", "boom")) in_project)))
    by (vm_compute; auto).
  assert (H2 : subprocess (stack_host (2, "", "boom"))
                 (plain_argv "/usr/bin/terraform") (Some "/srv/stack")
               = (2, "", "boom")) by reflexivity.
  assert (H3 : 2 <> 0) by lia.
  assert (H4 : 2 <> 1) by lia.
  destruct (other_exit_codes_fail_with_message_and_command Fragment.loads
              (stack_host (2, "", "boom")) in_project
              _ _ _ _ _ H1 H2 H3 H4) as (_ & M & _ & _ & _ & C).
  exact (conj H1 (conj H2 (conj H3 (conj H4 (conj M C))))).
Defined.

Lemma undecodable_output_propagates_witness :
  In (EvSpawn (plain_argv "/usr/bin/terraform") (Some "/srv/stack"))
     (snd (run (stack_host (0, "Terraform v1.5", "")) in_project)) /\
  subprocess (stack_host (0, "Terraform v1.5", ""))
    (plain_argv "/usr/bin/terraform") (Some "/srv/stack")
  = (0, "Terraform v1.5", "") /\
  Fragment.loads "Terraform v1.5" = DecodeError "Expecting value" /\
  fst (run (stack_host (0, "Terraform v1.5", "")) in_project)
  = Stop (Uncaught "Expecting value") /\
  warnings (snd (run (stack_host (0, "Terraform v1.5", "")) in_project)) = [].
Proof.
  assert (H1 : In (EvSpawn (plain_argv "/usr/bin/terraform") (Some "/srv/stack"))
                 (snd (run (stack_host (0, "Terraform v1.5", "")) in_project)))
    by (vm_compute; auto).
  assert (H2 : subprocess (stack_host (0, "Terraform v1.5", ""))
                 (plain_argv "/usr/bin/terraform") (Some "/srv/stack")
               = (0, "Terraform v1.5", "")) by reflexivity.
  assert (H3 : Fragment.loads "Terraform v1.5" = DecodeError "Expecting value")
    by (vm_compute; reflexivity).
  destruct (undecodable_output_propagates Fragment.loads
              (stack_host (0, "Terraform v1.5", "")) in_project
              _ _ _ _ _ H1 H2 H3) as (R & W & _).
  exact (conj H1 (conj H2 (conj H3 (conj R W)))).
Defined.

Lemma missing_state_file_fails_before_spawn_witness :
  state_file (with_state None "/tmp/nonexistent.tfstate")
  = Some "/tmp/nonexistent.tfstate" /\
  "/tmp/nonexistent.tfstate" <> "" /\
  on_disk (stack_host (0, "{}", "")) "/tmp/nonexistent.tfstate" = false /\
  which (stack_host (0, "{}", "")) "terraform" = inl "/usr/bin/terraform" /\
  failure_field "msg"
    (fst (run (stack_host (0, "{}", ""))
            (with_state None "/tmp/nonexistent.tfstate")))
  = Some (missing_state_msg "/tmp/nonexistent.tfstate") /\
  contains "/tmp/nonexistent.tfstate"
    (missing_state_msg "/tmp/nonexistent.tfstate") = true /\
  spawned (snd (run (stack_host (0, "{}", ""))
                  (with_state None "/tmp/nonexistent.tfstate"))) = [].
Proof.
  assert (H1 : state_file (with_state None "/tmp/nonexistent.tfstate")
               = Some "/tmp/nonexistent.tfstate") by reflexivity.
  assert (H2 : "/tmp/nonexistent.tfstate" <> "") by discriminate.
  assert (H3 : on_disk (stack_host (0, "{}", "")) "/tmp/nonexistent.tfstate"
               = false) by reflexivity.
  assert (H4 : which (stack_host (0, "{}", "")) "terraform"
               = inl "/usr/bin/terraform") by reflexivity.
  destruct (missing_state_file_fails_before_spawn Fragment.loads
              (stack_host (0, "{}", ""))
              (with_state None "/tmp/nonexistent.tfstate")
              "/tmp/nonexistent.tfstate" H1 H2 H3
              (fun _ => ex_intro _ "/usr/bin/terraform" H4))
    as (_ & M & C & S & _).
  exact (conj H1 (conj H2 (conj H3 (conj H4 (conj M (conj C S)))))).
Defined.

Lemma command_line_shape_witness :
  In (EvSpawn (plain_argv "terraform" ++ ["-state"; "/srv/stack/prod.tfstate"])
        (Some "/srv/stack"))
     (snd (run (stack_host (0, "{}", ""))
             (with_state (Some "terraform") "/srv/stack/prod.tfstate"))) /\
  spawned (snd (run (stack_host (0, "{}", ""))
                  (with_state (Some "terraform") "/srv/stack/prod.tfstate")))
  = [((plain_argv "terraform" ++ ["-state"; "/srv/stack/prod.tfstate"])%list,
      Some "/srv/stack")].
Proof.
  assert (H1 : In (EvSpawn
                     (plain_argv "terraform"
                      ++ ["-state"; "/srv/stack/prod.tfstate"])
                     (Some "/srv/stack"))
                 (snd (run (stack_host (0, "{}", ""))
                         (with_state (Some "terraform")
                            "/srv/stack/prod.tfstate"))))
    by (vm_compute; auto).
  destruct (command_line_shape Fragment.loads
              (stack_host (0, "{}", ""))
              (with_state (Some "terraform") "/srv/stack/prod.tfstate")
              _ _ H1) as (bin & _ & _ & _ & _ & S).
  exact (conj H1 S).
Defined.

Lemma binary_is_given_or_looked_up_witness :
  (binary_path (with_binary "./bin/terraform") = Some "./bin/terraform" /\
   forall argv cwd,
     In (EvSpawn argv cwd)
        (snd (run (stack_host (0, "{}", "")) (with_binary "./bin/terraform"))) ->
     hd_error argv = Some "./bin/terraform") /\
  (binary_path in_project = None /\
   which bare_host "terraform"
   = inr "Failed to find required executable terraform" /\
   fst (run bare_host in_project)
   = Stop (FailJson
             [("msg", JString "Failed to find required executable terraform")]) /\
   spawned (snd (run bare_host in_project)) = []).
Proof.
  assert (H1 : binary_path (with_binary "./bin/terraform")
               = Some "./bin/terraform") by reflexivity.
  assert (H2 : binary_path in_project = None) by reflexivity.
  assert (H3 : which bare_host "terraform"
               = inr "Failed to find required executable terraform")
    by reflexivity.
  pose proof (proj2 (proj1 (binary_is_given_or_looked_up Fragment.loads
                              (stack_host (0, "{}", ""))
                              (with_binary "./bin/terraform")) _ H1)) as G.
  destruct (proj2 (proj2 (proj2 (binary_is_given_or_looked_up Fragment.loads
                                   bare_host in_project) H2)) _ H3) as [F S].
  exact (conj (conj H1 G) (conj H2 (conj H3 (conj F S)))).
Defined.

Lemma lookup_failure_comes_first_witness :
  binary_path (with_state None "/tmp/nonexistent.tfstate") = None /\
  which bare_host "terraform"
  = inr "Failed to find required executable terraform" /\
  state_file (with_state None "/tmp/nonexistent.tfstate")
  = Some "/tmp/nonexistent.tfstate" /\
  on_disk bare_host "/tmp/nonexistent.tfstate" = false /\
  run bare_host (with_state None "/tmp/nonexistent.tfstate")
  = (Stop (FailJson
             [("msg", JString "Failed to find required executable terraform")]),
     [EvLookup "terraform"]).
Proof.
  assert (H1 : binary_path (with_state None "/tmp/nonexistent.tfstate") = None)
    by reflexivity.
  assert (H2 : which bare_host "terraform"
               = inr "Failed to find required executable terraform")
    by reflexivity.
  assert (H3 : state_file (with_state None "/tmp/nonexistent.tfstate")
               = Some "/tmp/nonexistent.tfstate") by reflexivity.
  assert (H4 : on_disk bare_host "/tmp/nonexistent.tfstate" = false)
    by reflexivity.
  exact (conj H1 (conj H2 (conj H3 (conj H4
           (proj1 (lookup_failure_comes_first Fragment.loads
                     bare_host (with_state None "/tmp/nonexistent.tfstate")
                     _ _ H1 H2 H3 H4)))))).
Defined.

Lemma same_answers_same_result_witness :
  which (stack_host (2, "", "boom")) "terraform"
  = which (host ["/srv/stack/prod.tfstate"; "/etc/hosts"]
             (inl "/usr/bin/terraform") (2, "", "boom")) "terraform" /\
  run (stack_host (2, "", "boom"))
    (with_state None "/srv/stack/prod.tfstate")
  = run (host ["/srv/stack/prod.tfstate"; "/etc/hosts"]
           (inl "/usr/bin/terraform") (2, "", "boom"))
      (with_state None "/srv/stack/prod.tfstate").
Proof.
  assert (H1 : which (stack_host (2, "", "boom")) "terraform"
               = which (host ["/srv/stack/prod.tfstate"; "/etc/hosts"]
                          (inl "/usr/bin/terraform") (2, "", "boom"))
                   "terraform") by reflexivity.
  refine (conj H1
            (same_answers_same_result Fragment.loads
               (stack_host (2, "", "boom"))
               (host ["/srv/stack/prod.tfstate"; "/etc/hosts"]
                  (inl "/usr/bin/terraform") (2, "", "boom"))
               (with_state None "/srv/stack/prod.tfstate")
               (fun _ => H1) _ _)).
  - intros path H. injection H as <-. reflexivity.
  - intros argv cwd _. reflexivity.
Defined.

(** ** Where the specification says otherwise *)

(** A state file given as the empty string is supplied and is not on
    disk, yet the invocation does not fail and the subprocess is started.
    And where the binary has to be looked up and is not found, a missing
    state file is not what the failure speaks of: its path is not in the
    message. *)
Lemma blank_state_file_is_not_rejected :
  (state_file (with_state (Some "terraform") "") = Some "" /\
   on_disk (stack_host (0, "{}", "")) "" = false /\
   run (stack_host (0, "{}", "")) (with_state (Some "terraform") "")
   = (Stop (ExitJson [("outputs", JDict [])]),
      [EvSpawn (plain_argv "terraform") (Some "/srv/stack")]) /\
   ~ (exists msg,
         failure_field "msg"
           (fst (run (stack_host (0, "{}", ""))
                   (with_state (Some "terraform") ""))) = Some msg /\
         contains "" msg = true /\
         spawned (snd (run (stack_host (0, "{}", ""))
                         (with_state (Some "terraform") ""))) = [])) /\
  (state_file (with_state None "/tmp/nonexistent.tfstate")
   = Some "/tmp/nonexistent.tfstate" /\
   on_disk bare_host "/tmp/nonexistent.tfstate" = false /\
   failure_field "msg"
     (fst (run bare_host (with_state None "/tmp/nonexistent.tfstate")))
   = Some "Failed to find required executable terraform" /\
   contains "/tmp/nonexistent.tfstate"
     "Failed to find required executable terraform" = false).
Proof.
  split; [|vm_compute; repeat split].
  repeat split. intros (msg & H & _). vm_compute in H. discriminate.
Qed.

(** On exit code 2 the message of the failure does not contain the
    command line; the command line is the separate [command] keyword. *)
Lemma failure_message_lacks_command_line :
  run (stack_host (2, "", "boom")) (with_binary "terraform")
  = (Stop (FailJson
             [("msg", JString (outputs_failure_msg 2 "" "boom"));
              ("command", JString "terraform output -no-color -json")]),
     [EvSpawn (plain_argv "terraform") (Some "/srv/stack")]) /\
  join " " (plain_argv "terraform") = "terraform output -no-color -json" /\
  failure_field "msg"
    (fst (run (stack_host (2, "", "boom")) (with_binary "terraform")))
  = Some (outputs_failure_msg 2 "" "boom") /\
  contains "terraform output -no-color -json"
    (outputs_failure_msg 2 "" "boom") = false.
Proof. vm_compute. repeat split. Qed.

(** Two hosts that agree on every file and on every subprocess, and the
    same parameters, yet different failure reports: the hosts keep
    [terraform] in different places, and the place is part of the
    reported command. *)
Lemma lookup_answer_changes_reported_command :
  (forall path,
      on_disk (host [] (inl "/usr/bin/terraform") (2, "", "boom")) path
      = on_disk (host [] (inl "/usr/local/bin/terraform") (2, "", "boom")) path) /\
  (forall argv cwd,
      subprocess (host [] (inl "/usr/bin/terraform") (2, "", "boom")) argv cwd
      = subprocess (host [] (inl "/usr/local/bin/terraform") (2, "", "boom"))
          argv cwd) /\
  failure_field "command"
    (fst (run (host [] (inl "/usr/bin/terraform") (2, "", "boom")) in_project))
  = Some "/usr/bin/terraform output -no-color -json" /\
  failure_field "command"
    (fst (run (host [] (inl "/usr/local/bin/terraform") (2, "", "boom"))
            in_project))
  = Some "/usr/local/bin/terraform output -no-color -json" /\
  fst (run (host [] (inl "/usr/bin/terraform") (2, "", "boom")) in_project)
  <> fst (run (host [] (inl "/usr/local/bin/terraform") (2, "", "boom"))
            in_project).
Proof.
  repeat split. vm_compute. discriminate.
Qed.

(** ** Beyond the exit codes: what an invocation does and leaves alone *)

Section Coverage.

Variable json_loads : string -> decoded.

Lemma resolved_functional (w : world) (p p' : params) (bin bin' : string)
    (pre pre' : list event) :
  binary_path p = binary_path p' ->
  resolved w p bin pre -> resolved w p' bin' pre' ->
  bin = bin' /\ pre = pre'.
Proof.
  intros E [b Hb | b Hb Hw] [b' Hb' | b' Hb' Hw']; split; congruence.
Qed.

Lemma state_ok_functional (w : world) (sf : option string)
    (args args' : list string) (probes probes' : list event) :
  state_ok w sf args probes -> state_ok w sf args' probes' ->
  args = args' /\ probes = probes'.
Proof.
  intros H H'. destruct H; inversion H'; subst; auto; discriminate.
Qed.

Lemma state_ok_not_missing (w : world) (sf : option string)
    (args : list string) (probes : list event) (path : string) :
  state_ok w sf args probes ->
  sf = Some path -> path <> "" -> on_disk w path = false -> False.
Proof.
  intros H E Hne Hoff. destruct H; congruence.
Qed.

(** The log of a course that reached the subprocess, read three ways. *)
Lemma ran_log (w : world) (p : params) (bin : string) (pre probes after : list event)
    (args argv : list string) (cwd : option string) (r : Z * string * string)
    (s : stop) :
  resolved w p bin pre ->
  state_ok w (state_file p) args probes ->
  verdict json_loads argv r s after ->
  spawned (pre ++ probes ++ EvSpawn argv cwd :: after) = [(argv, cwd)] /\
  probed (pre ++ probes ++ EvSpawn argv cwd :: after) = probed probes /\
  looked_up (pre ++ probes ++ EvSpawn argv cwd :: after) = looked_up pre.
Proof.
  intros Hres Hok Hv.
  destruct Hres; destruct Hok; destruct Hv; repeat split.
Qed.


(** X2.  The calls of an invocation come in the order of the stages of
    [main]: the lookup of the binary, the tests of the state file, the
    subprocess, the warning.  Nothing is looked up but [terraform], at
    most once, and an invocation makes at most four calls in all. *)
Theorem calls_come_in_order (w : world) (p : params) :
  in_order (snd (invoke json_loads w p)) = true /\
  (looked_up (snd (invoke json_loads w p)) = [] \/
   looked_up (snd (invoke json_loads w p)) = ["terraform"]) /\
  (length (snd (invoke json_loads w p)) <= 4)%nat.
Proof.
  pose proof (invoke_course json_loads w p) as C.
  inversion C as [ e Hnone Hw Heq
                 | bin pre path Hres Hsf Hne Hoff Heq
                 | bin pre args probes s after Hres Hok argv Hv Heq ];
    cbn [snd].
  - repeat split; auto; cbn; lia.
  - destruct Hres; cbn; repeat split; auto; lia.
  - destruct Hres; destruct Hok; destruct Hv; cbn; repeat split; auto; lia.
Qed.

(** X3.  The only path whose existence is tested is the state file, as it
    was supplied: never the project path, never the binary, and never the
    state file joined to the project path.  When it is tested at all, it
    is tested once if it is on disk and twice if it is not. *)
Theorem only_the_state_file_is_probed (w : world) (p : params) :
  probed (snd (invoke json_loads w p)) = [] \/
  exists path,
    state_file p = Some path /\ path <> "" /\
    probed (snd (invoke json_loads w p))
    = if on_disk w path then [path] else [path; path].
Proof.
  pose proof (invoke_course json_loads w p) as C.
  inversion C as [ e Hnone Hw Heq
                 | bin pre path Hres Hsf Hne Hoff Heq
                 | bin pre args probes s after Hres Hok argv Hv Heq ];
    cbn [snd].
  - now left.
  - right. exists path. rewrite Hoff. repeat split; try assumption.
    destruct Hres; reflexivity.
  - rewrite (proj1 (proj2 (ran_log _ _ _ _ _ _ _ _ _ _ _ Hres Hok Hv))).
    inversion Hok as [Hsf | Hsf | path Hon Hsf]; [now left | now left |].
    right. exists path. rewrite Hon. repeat split.
    intros ->. discriminate.
Qed.

(** X4.  A warning is recorded only for a subprocess that exited with
    code 1: its text is the one built from that subprocess's output
    streams, and the invocation then ends in [exit_json] with the empty
    mapping, never in a failure. *)
Theorem warning_only_on_exit_code_one
    (w : world) (p : params) (text : string) :
  In (EvWarn text) (snd (invoke json_loads w p)) ->
  exists argv out err,
    spawned (snd (invoke json_loads w p)) = [(argv, project_path p)] /\
    subprocess w argv (project_path p) = (1, out, err) /\
    text = no_outputs_msg out err /\
    warnings (snd (invoke json_loads w p)) = [text] /\
    fst (invoke json_loads w p) = Stop (ExitJson [("outputs", JDict [])]).
Proof.
  intros Hin.
  pose proof (invoke_course json_loads w p) as C.
  inversion C as [ e Hnone Hw Heq
                 | bin pre path Hres Hsf Hne Hoff Heq
                 | bin pre args probes s after Hres Hok argv Hv Heq ];
    rewrite <- Heq in Hin; cbn [snd] in Hin.
  - destruct Hin as [H|[]]. discriminate.
  - destruct Hres; cbn in Hin; intuition discriminate.
  - cbn [fst snd].
    rewrite (proj1 (ran_log _ _ _ _ _ _ _ _ _ _ _ Hres Hok Hv)).
    rewrite (ran_warnings _ _ _ _ _ _ _ _ _ Hres Hok).
    assert (Hafter : In (EvWarn text) after).
    { apply in_app_or in Hin. destruct Hin as [Hin|Hin];
        [destruct Hres; cbn in Hin; intuition discriminate|].
      apply in_app_or in Hin. destruct Hin as [Hin|Hin];
        [destruct Hok; cbn in Hin; intuition discriminate|].
      destruct Hin as [Hin|Hin]; [discriminate | exact Hin]. }
    inversion Hv as [ out err Hr | rc out err Hne0 Hne1 Hr
                    | out err v Hdec Hr | out err e Hdec Hr ];
      subst after; cbn in Hafter; try contradiction.
    destruct Hafter as [Hafter|[]]. injection Hafter as <-.
    exists argv, out, err. subst s. repeat split; auto.
Qed.

(** X5.  A result payload has exactly one keyword, [outputs].  Its value
    is either the empty mapping, after a subprocess that exited with
    code 1, or what the standard output of a subprocess that exited with
    code 0 decodes to. *)
Theorem result_payload_shape
    (w : world) (p : params) (kwargs : list (string * json_value)) :
  fst (invoke json_loads w p) = Stop (ExitJson kwargs) ->
  exists v argv out err,
    kwargs = [("outputs", v)] /\
    spawned (snd (invoke json_loads w p)) = [(argv, project_path p)] /\
    ((subprocess w argv (project_path p) = (1, out, err) /\ v = JDict []) \/
     (subprocess w argv (project_path p) = (0, out, err) /\
      json_loads out = Decoded v)).
Proof.
  intros Hexit.
  pose proof (invoke_course json_loads w p) as C.
  inversion C as [ e Hnone Hw Heq
                 | bin pre path Hres Hsf Hne Hoff Heq
                 | bin pre args probes s after Hres Hok argv Hv Heq ];
    rewrite <- Heq in Hexit; cbn [fst] in Hexit; try discriminate.
  cbn [snd]. rewrite (proj1 (ran_log _ _ _ _ _ _ _ _ _ _ _ Hres Hok Hv)).
  inversion Hv as [ out err Hr | rc out err Hne0 Hne1 Hr
                  | out err v Hdec Hr | out err e Hdec Hr ];
    subst s; try discriminate; injection Hexit as <-.
  - exists (JDict []), argv, out, err. repeat split. now left.
  - exists v, argv, out, err. repeat split. now right.
Qed.


(** X7.  The module does not check what the standard output decodes to:
    after exit code 0 any decoded value (a list, a string, a number,
    [null] as much as a mapping) is returned under [outputs] as it is,
    with no warning. *)
Theorem any_decoded_value_is_returned
    (w : world) (p : params) (argv : list string) (cwd : option string)
    (out err : string) (v : json_value) :
  In (EvSpawn argv cwd) (snd (invoke json_loads w p)) ->
  subprocess w argv cwd = (0, out, err) ->
  json_loads out = Decoded v ->
  fst (invoke json_loads w p) = Stop (ExitJson [("outputs", v)]) /\
  warnings (snd (invoke json_loads w p)) = [].
Proof.
  intros Hin Hrun Hdec.
  destruct (spawn_inv json_loads _ _ _ _ Hin)
    as (bin & pre & args & probes & s & after & Hres & Hok & _ & _ & Hv & ->).
  rewrite Hrun in Hv. cbn [fst snd].
  rewrite (ran_warnings _ _ _ _ _ _ _ _ _ Hres Hok).
  inversion Hv; subst; try congruence.
  split; [|reflexivity]. repeat f_equal. congruence.
Qed.

Lemma resolved_transfer (w w' : world) (p p' : params) (bin : string)
    (pre : list event) :
  binary_path p = binary_path p' ->
  (binary_path p = None -> which w "terraform" = which w' "terraform") ->
  resolved w p bin pre -> resolved w' p' bin pre.
Proof.
  intros E Hw [b Hb | b Hb Hfound].
  - apply Given. congruence.
  - apply Located; [congruence|]. rewrite <- Hw; assumption.
Qed.

Lemma state_ok_transfer (w w' : world) (sf : option string)
    (args : list string) (probes : list event) :
  (forall path, sf = Some path -> on_disk w path = on_disk w' path) ->
  state_ok w sf args probes -> state_ok w' sf args probes.
Proof.
  intros Hdisk H. destruct H; constructor.
  rewrite <- (Hdisk path); auto.
Qed.

(** X8.  The standard error of a subprocess that exited with code 0 is
    dropped: two hosts that differ only in what the subprocess wrote
    there give the same result and the same record of calls. *)
Theorem stderr_of_success_is_dropped
    (w1 w2 : world) (p : params) (argv : list string) (cwd : option string)
    (out err1 err2 : string) :
  (binary_path p = None -> which w1 "terraform" = which w2 "terraform") ->
  (forall path, state_file p = Some path -> on_disk w1 path = on_disk w2 path) ->
  In (EvSpawn argv cwd) (snd (invoke json_loads w1 p)) ->
  subprocess w1 argv cwd = (0, out, err1) ->
  subprocess w2 argv cwd = (0, out, err2) ->
  invoke json_loads w1 p = invoke json_loads w2 p.
Proof.
  intros Hwhich Hdisk Hin Hrun1 Hrun2.
  destruct (spawn_inv json_loads _ _ _ _ Hin)
    as (bin & pre & args & probes & s & after & Hres & Hok & -> & -> & Hv & ->).
  symmetry. apply course_complete.
  apply Ran.
  - now apply (resolved_transfer w1 w2 p p).
  - now apply (state_ok_transfer w1 w2).
  - cbv zeta. rewrite Hrun2. rewrite Hrun1 in Hv.
    inversion Hv; subst; try congruence; now constructor.
Qed.

(** X9.  The command a failed subprocess is reported with is the binary
    followed by [ output -no-color -json], and by [ -state ] and the
    state file when one was passed: the arguments are joined with single
    spaces and are not quoted. *)
Theorem reported_command_text
    (w : world) (p : params) (argv : list string) (cwd : option string)
    (rc : Z) (out err : string) :
  In (EvSpawn argv cwd) (snd (invoke json_loads w p)) ->
  subprocess w argv cwd = (rc, out, err) ->
  rc <> 0 -> rc <> 1 ->
  exists bin,
    hd_error argv = Some bin /\
    ((exists path,
         state_file p = Some path /\ on_disk w path = true /\
         failure_field "command" (fst (invoke json_loads w p))
         = Some (bin ++ " output -no-color -json -state " ++ path))
     \/
     ((forall path, state_file p = Some path -> on_disk w path = false) /\
      failure_field "command" (fst (invoke json_loads w p))
      = Some (bin ++ " output -no-color -json"))).
Proof.
  intros Hin Hrun Hne0 Hne1.
  destruct (spawn_inv json_loads _ _ _ _ Hin)
    as (bin & pre & args & probes & s & after & Hres & Hok & -> & -> & Hv & ->).
  rewrite Hrun in Hv. cbn [fst].
  exists bin. split; [reflexivity|].
  inversion Hv; subst; try congruence.
  inversion Hok as [Hsf | Hsf | path Hon Hsf]; subst.
  - right. split; [intros path Hp; congruence | reflexivity].
  - right. split; [|reflexivity]. intros path Hp.
    assert (path = "") as -> by congruence. reflexivity.
  - left. exists path. repeat split; auto.
Qed.

(** X12.  The project path is the working directory of the subprocess
    and nothing else: with the binary path and the state file kept, two
    project paths give the same lookups, the same existence tests and the
    same argument vector, and each subprocess runs in its project
    path. *)
Theorem project_path_only_sets_cwd
    (w : world) (project project' binary state : option string) :
  let p := {| project_path := project; binary_path := binary;
              state_file := state |} in
  let p' := {| project_path := project'; binary_path := binary;
               state_file := state |} in
  looked_up (snd (invoke json_loads w p))
  = looked_up (snd (invoke json_loads w p')) /\
  probed (snd (invoke json_loads w p))
  = probed (snd (invoke json_loads w p')) /\
  map fst (spawned (snd (invoke json_loads w p)))
  = map fst (spawned (snd (invoke json_loads w p'))) /\
  (forall cwd, In cwd (map snd (spawned (snd (invoke json_loads w p)))) ->
               cwd = project).
Proof.
  intros p p'.
  assert (Eb : binary_path p = binary_path p') by reflexivity.
  assert (Es : state_file p = state_file p') by reflexivity.
  pose proof (invoke_course json_loads w p) as C.
  pose proof (invoke_course json_loads w p') as C'.
  inversion C as [ e Hnone Hw Heq
                 | bin pre path Hres Hsf Hne Hoff Heq
                 | bin pre args probes s after Hres Hok argv Hv Heq ];
    inversion C' as [ e' Hnone' Hw' Heq'
                    | bin' pre' path' Hres' Hsf' Hne' Hoff' Heq'
                    | bin' pre' args' probes' s' after' Hres' Hok' argv' Hv' Heq' ];
    cbn [snd];
    try (exfalso; destruct Hres; congruence);
    try (exfalso; destruct Hres'; congruence);
    try (exfalso; rewrite <- Es in *;
         eapply state_ok_not_missing; eassumption).
  - repeat split. intros cwd [].
  - destruct (resolved_functional _ _ _ _ _ _ _ Eb Hres Hres') as [-> ->].
    assert (path' = path) as -> by congruence.
    rewrite !spawned_app, (proj1 (resolved_quiet _ _ _ _ Hres')).
    repeat split. intros cwd [].
  - destruct (resolved_functional _ _ _ _ _ _ _ Eb Hres Hres') as [-> ->].
    rewrite <- Es in Hok'.
    destruct (state_ok_functional _ _ _ _ _ _ Hok Hok') as [-> ->].
    destruct (ran_log _ _ _ _ _ _ _ _ project _ _ Hres Hok Hv)
      as (-> & -> & ->).
    destruct (ran_log _ _ _ _ _ _ _ _ project' _ _ Hres Hok Hv')
      as (-> & -> & ->).
    repeat split. intros cwd [<-|[]]. reflexivity.
Qed.

End Coverage.

(** ** The texts the module writes *)

Lemma append_inv_head (s a b : string) : s ++ a = s ++ b -> a = b.
Proof.
  induction s as [|c s IH]; simpl; intros H; [exact H|].
  injection H as H. auto.
Qed.

Lemma length_append (s t : string) :
  String.length (s ++ t) = (String.length s + String.length t)%nat.
Proof. induction s as [|c s IH]; simpl; [reflexivity | now rewrite IH]. Qed.

Lemma append_inv_tail (s1 s2 t : string) : s1 ++ t = s2 ++ t -> s1 = s2.
Proof.
  revert s2. induction s1 as [|a s1 IH]; intros [|b s2] H; simpl in H.
  - reflexivity.
  - apply (f_equal String.length) in H. simpl in H.
    rewrite length_append in H. lia.
  - apply (f_equal String.length) in H. simpl in H.
    rewrite length_append in H. lia.
  - injection H as -> H. f_equal. now apply IH.
Qed.

(** Two texts that agree up to and including the first occurrence of a
    character agree before it and after it. *)
Lemma split_at_first (c : ascii) (s1 s2 t1 t2 : string) :
  lacks c s1 = true -> lacks c s2 = true ->
  s1 ++ String c t1 = s2 ++ String c t2 ->
  s1 = s2 /\ t1 = t2.
Proof.
  revert s2. induction s1 as [|a s1 IH]; intros [|b s2] L1 L2 H;
    simpl in H, L1, L2.
  - injection H as ->. auto.
  - injection H as -> _. rewrite Ascii.eqb_refl in L2. discriminate.
  - injection H as -> _. rewrite Ascii.eqb_refl in L1. discriminate.
  - injection H as -> H.
    apply andb_true_iff in L1, L2.
    destruct (IH s2 (proj2 L1) (proj2 L2) H) as [-> ->]. auto.
Qed.

Lemma digits_lack_dot (d : Decimal.uint) :
  lacks "." (NilEmpty.string_of_uint d) = true.
Proof. induction d; simpl; auto. Qed.

Lemma str_of_int_lacks_dot (n : Z) : lacks "." (str_of_int n) = true.
Proof.
  unfold str_of_int, NilZero.string_of_int, NilZero.string_of_uint.
  destruct (Z.to_int n) as [d|d]; destruct d; simpl;
    auto using digits_lack_dot.
Qed.

(** Printing an integer in base ten loses nothing. *)
Lemma str_of_int_inj (a b : Z) : str_of_int a = str_of_int b -> a = b.
Proof.
  unfold str_of_int. intros H.
  assert (Hproper : forall z,
             Z.to_int z <> Decimal.Pos Decimal.Nil /\
             Z.to_int z <> Decimal.Neg Decimal.Nil).
  { intros [|q|q]; simpl; split; try discriminate;
      intros E; injection E as E;
      now apply (DecimalPos.Unsigned.to_uint_nonnil q). }
  apply DecimalZ.to_int_inj.
  apply (f_equal NilZero.int_of_string) in H.
  rewrite !NilZero.isi in H by apply Hproper.
  now injection H.
Qed.

(** X10.  The exit code can be read back from the message of an
    exit-code failure: two such messages are equal only for the same exit
    code, whatever the output streams hold. *)
Theorem failure_message_tells_exit_code
    (rc rc' : Z) (out out' err err' : string) :
  outputs_failure_msg rc out err = outputs_failure_msg rc' out' err' ->
  rc = rc'.
Proof.
  unfold outputs_failure_msg. intros H.
  do 2 apply append_inv_head in H.
  change ("." ++ ?t) with (String "." t) in H.
  apply str_of_int_inj.
  apply (split_at_first "." _ _ _ _
           (str_of_int_lacks_dot rc) (str_of_int_lacks_dot rc') H).
Qed.

(** X11.  The path can be read back from the message of a missing state
    file: two such messages are equal only for the same path. *)
Theorem missing_state_message_tells_path (path path' : string) :
  missing_state_msg path = missing_state_msg path' -> path = path'.
Proof.
  unfold missing_state_msg. intros H.
  do 2 apply append_inv_head in H.
  now apply append_inv_tail in H.
Qed.

(** X13.  The three texts the module writes (the message of a missing
    state file, the message of an exit-code failure and the warning of
    exit code 1) cannot be taken for one another, whatever path, exit
    code and output streams they are built from. *)
Theorem module_texts_are_distinct
    (path : string) (rc : Z) (out err out' err' : string) :
  missing_state_msg path <> outputs_failure_msg rc out err /\
  missing_state_msg path <> no_outputs_msg out' err' /\
  outputs_failure_msg rc out err <> no_outputs_msg out' err'.
Proof.
  unfold missing_state_msg, outputs_failure_msg, no_outputs_msg.
  repeat split; intros H; cbn [append] in H; discriminate.
Qed.

(** ** These properties on concrete hosts *)

Lemma warning_only_on_exit_code_one_witness :
  In (EvWarn (no_outputs_msg "" "no outputs"))
     (snd (run (stack_host (1, "", "no outputs")) in_project)) /\
  exists argv out err,
    spawned (snd (run (stack_host (1, "", "no outputs")) in_project))
    = [(argv, project_path in_project)] /\
    subprocess (stack_host (1, "", "no outputs")) argv (project_path in_project)
    = (1, out, err) /\
    no_outputs_msg "" "no outputs" = no_outputs_msg out err /\
    warnings (snd (run (stack_host (1, "", "no outputs")) in_project))
    = [no_outputs_msg "" "no outputs"] /\
    fst (run (stack_host (1, "", "no outputs")) in_project)
    = Stop (ExitJson [("outputs", JDict [])]).
Proof.
  assert (H1 : In (EvWarn (no_outputs_msg "" "no outputs"))
                 (snd (run (stack_host (1, "", "no outputs")) in_project)))
    by (vm_compute; auto).
  exact (conj H1
           (warning_only_on_exit_code_one Fragment.loads
              (stack_host (1, "", "no outputs")) in_project _ H1)).
Defined.

Lemma result_payload_shape_witness :
  fst (run (stack_host (0, bukkit_text, "")) in_project)
  = Stop (ExitJson [("outputs", JDict bukkit_outputs)]) /\
  exists v argv out err,
    [("outputs", JDict bukkit_outputs)] = [("outputs", v)] /\
    spawned (snd (run (stack_host (0, bukkit_text, "")) in_project))
    = [(argv, project_path in_project)] /\
    ((subprocess (stack_host (0, bukkit_text, "")) argv
        (project_path in_project) = (1, out, err) /\ v = JDict []) \/
     (subprocess (stack_host (0, bukkit_text, "")) argv
        (project_path in_project) = (0, out, err) /\
      Fragment.loads out = Decoded v)).
Proof.
  assert (H1 : fst (run (stack_host (0, bukkit_text, "")) in_project)
               = Stop (ExitJson [("outputs", JDict bukkit_outputs)]))
    by (vm_compute; reflexivity).
  exact (conj H1
           (result_payload_shape Fragment.loads
              (stack_host (0, bukkit_text, "")) in_project _ H1)).
Defined.


Lemma any_decoded_value_is_returned_witness :
  In (EvSpawn (plain_argv "/usr/bin/terraform") (Some "/srv/stack"))
     (snd (run (stack_host (0, "[1, 2]", "")) in_project)) /\
  subprocess (stack_host (0, "[1, 2]", ""))
    (plain_argv "/usr/bin/terraform") (Some "/srv/stack")
  = (0, "[1, 2]", "") /\
  Fragment.loads "[1, 2]" = Decoded (JList [JInt 1; JInt 2]) /\
  fst (run (stack_host (0, "[1, 2]", "")) in_project)
  = Stop (ExitJson [("outputs", JList [JInt 1; JInt 2])]).
Proof.
  assert (H1 : In (EvSpawn (plain_argv "/usr/bin/terraform") (Some "/srv/stack"))
                 (snd (run (stack_host (0, "[1, 2]", "")) in_project)))
    by (vm_compute; auto).
  assert (H2 : subprocess (stack_host (0, "[1, 2]", ""))
                 (plain_argv "/usr/bin/terraform") (Some "/srv/stack")
               = (0, "[1, 2]", "")) by reflexivity.
  assert (H3 : Fragment.loads "[1, 2]" = Decoded (JList [JInt 1; JInt 2]))
    by (vm_compute; reflexivity).
  exact (conj H1 (conj H2 (conj H3
           (proj1 (any_decoded_value_is_returned Fragment.loads
                     (stack_host (0, "[1, 2]", "")) in_project
                     _ _ _ _ _ H1 H2 H3))))).
Defined.

Lemma stderr_of_success_is_dropped_witness :
  In (EvSpawn (plain_argv "/usr/bin/terraform") (Some "/srv/stack"))
     (snd (run (stack_host (0, "{}", "")) in_project)) /\
  subprocess (stack_host (0, "{}", ""))
    (plain_argv "/usr/bin/terraform") (Some "/srv/stack")
  = (0, "{}", "") /\
  subprocess (stack_host (0, "{}", "Warning: deprecated attribute"))
    (plain_argv "/usr/bin/terraform") (Some "/srv/stack")
  = (0, "{}", "Warning: deprecated attribute") /\
  run (stack_host (0, "{}", "")) in_project
  = run (stack_host (0, "{}", "Warning: deprecated attribute")) in_project.
Proof.
  assert (H1 : In (EvSpawn (plain_argv "/usr/bin/terraform") (Some "/srv/stack"))
                 (snd (run (stack_host (0, "{}", "")) in_project)))
    by (vm_compute; auto).
  assert (H2 : subprocess (stack_host (0, "{}", ""))
                 (plain_argv "/usr/bin/terraform") (Some "/srv/stack")
               = (0, "{}", "")) by reflexivity.
  assert (H3 : subprocess (stack_host (0, "{}", "Warning: deprecated attribute"))
                 (plain_argv "/usr/bin/terraform") (Some "/srv/stack")
               = (0, "{}", "Warning: deprecated attribute")) by reflexivity.
  exact (conj H1 (conj H2 (conj H3
           (stderr_of_success_is_dropped Fragment.loads
              (stack_host (0, "{}", ""))
              (stack_host (0, "{}", "Warning: deprecated attribute"))
              in_project _ _ _ _ _
              (fun _ => eq_refl) (fun _ _ => eq_refl) H1 H2 H3)))).
Defined.

Lemma reported_command_text_witness :
  In (EvSpawn (plain_argv "terraform" ++ ["-state"; "/srv/stack/prod.tfstate"])
        (Some "/srv/stack"))
     (snd (run (stack_host (2, "", "boom"))
             (with_state (Some "terraform") "/srv/stack/prod.tfstate"))) /\
  2 <> 0 /\ 2 <> 1 /\
  failure_field "command"
    (fst (run (stack_host (2, "", "boom"))
            (with_state (Some "terraform") "/srv/stack/prod.tfstate")))
  = Some "terraform output -no-color -json -state /srv/stack/prod.tfstate".
Proof.
  assert (H1 : In (EvSpawn
                     (plain_argv "terraform"
                      ++ ["-state"; "/srv/stack/prod.tfstate"])
                     (Some "/srv/stack"))
                 (snd (run (stack_host (2, "", "boom"))
                         (with_state (Some "terraform")
                            "/srv/stack/prod.tfstate"))))
    by (vm_compute; auto).
  assert (H3 : 2 <> 0) by lia.
  assert (H4 : 2 <> 1) by lia.
  split; [exact H1|]. split; [exact H3|]. split; [exact H4|].
  destruct (reported_command_text Fragment.loads
              (stack_host (2, "", "boom"))
              (with_state (Some "terraform") "/srv/stack/prod.tfstate")
              _ _ 2 "" "boom" H1 eq_refl H3 H4)
    as (bin & Hbin & [(path & Hsf & _ & Hc) | [Hoff _]]).
  - injection Hbin as <-. injection Hsf as <-. exact Hc.
  - specialize (Hoff _ eq_refl). discriminate Hoff.
Defined.

Lemma failure_message_tells_exit_code_witness :
  outputs_failure_msg 2 ("a" ++ newline ++ "stderr: b") "c"
  = outputs_failure_msg 2 "a" ("b" ++ newline ++ "stderr: c") /\
  2 = 2.
Proof.
  assert (H : outputs_failure_msg 2 ("a" ++ newline ++ "stderr: b") "c"
              = outputs_failure_msg 2 "a" ("b" ++ newline ++ "stderr: c"))
    by (vm_compute; reflexivity).
  exact (conj H (failure_message_tells_exit_code _ _ _ _ _ _ H)).
Defined.

Lemma missing_state_message_tells_path_witness :
  missing_state_msg "/tmp/nonexistent.tfstate"
  = missing_state_msg "/tmp/nonexistent.tfstate" /\
  "/tmp/nonexistent.tfstate" = "/tmp/nonexistent.tfstate".
Proof.
  exact (conj eq_refl
           (missing_state_message_tells_path
              "/tmp/nonexistent.tfstate" "/tmp/nonexistent.tfstate" eq_refl)).
Defined.
